(** * monsti-daemon: content store, navigation and request dispatch

    A shallow embedding of [node.go] (content store and navigation) and of
    the daemon's node handler (ticket dispatch and response projection),
    together with the properties of the specification that concern them.

    Go strings are byte sequences and are modelled by [string]; a function
    that can panic returns in the [exec] monad; the file system, the YAML
    codec and the rendering layer are the environment of the code and are
    modelled separately from it. *)

From Stdlib Require Import ZArith Lia Ascii.
From stdpp Require Import base strings list gmap.

Local Open Scope string_scope.
Local Open Scope list_scope.

(** ** Strings *)

Module Str.

(** [s[1:]]: slicing off the first byte panics on the empty string. *)
Definition tail1 (s : string) : option string :=
  match s with
  | EmptyString => None
  | String _ s' => Some s'
  end.

(** [s[0] == '/'] for a non-empty [s]. *)
Definition rooted (s : string) : bool :=
  match s with
  | String c _ => Ascii.eqb c "/"%char
  | EmptyString => false
  end.

(** [s[len(s)-1]], which panics on the empty string. *)
Fixpoint last_byte (s : string) : option Ascii.ascii :=
  match s with
  | EmptyString => None
  | String c EmptyString => Some c
  | String _ s' => last_byte s'
  end.

End Str.

(** ** Paths: Go's [path] and [path/filepath] on a slash-separated system

    [Clean], [Join] and [Dir] are library functions; they are modelled on
    path elements, following the four rewriting rules of [Clean]. *)

Module Path.

Definition is_sep (c : Ascii.ascii) : bool := Ascii.eqb c "/"%char.

(** [strings.Split(s, "/")] *)
Fixpoint split (s : string) : list string :=
  match s with
  | EmptyString => [""]
  | String c s' =>
      if is_sep c then "" :: split s'
      else match split s' with
           | e :: es => String c e :: es
           | [] => [String c ""]
           end
  end.

(** [strings.Join(elems, "/")] *)
Fixpoint join (elems : list string) : string :=
  match elems with
  | [] => ""
  | [e] => e
  | e :: es => e +:+ "/" +:+ join es
  end.

(** One element read by [Clean]; [out] is the output buffer as a stack of
    elements, last written first. An empty element and [.] are dropped;
    [..] removes the last written element when there is one to remove,
    is dropped at the root, and is written otherwise. *)
Definition clean_step (is_rooted : bool) (out : list string) (e : string)
  : list string :=
  if (e =? "")%string then out
  else if (e =? ".")%string then out
  else if (e =? "..")%string then
    match out with
    | top :: out' =>
        if (top =? "..")%string then e :: out else out'
    | [] => if is_rooted then out else [e]
    end
  else e :: out.

Definition clean_elems (is_rooted : bool) (out elems : list string)
  : list string :=
  fold_left (clean_step is_rooted) elems out.

Definition Clean (path : string) : string :=
  if (path =? "")%string then "."
  else
    let is_rooted := Str.rooted path in
    let out := rev (clean_elems is_rooted [] (split path)) in
    if is_rooted then "/" +:+ join out
    else match out with
         | [] => "."
         | _ => join out
         end.

(** [Join(elem...)]: the elements from the first non-empty one on are
    joined by slashes and cleaned; with no non-empty element the result
    is empty. *)
Fixpoint Join (elem : list string) : string :=
  match elem with
  | [] => ""
  | e :: rest => if (e =? "")%string then Join rest else Clean (join elem)
  end.

Fixpoint has_sep (s : string) : bool :=
  match s with
  | EmptyString => false
  | String c s' => is_sep c || has_sep s'
  end.

(** [path[:i+1]] for the last index [i] of a separator, empty without one *)
Fixpoint dir_prefix (s : string) : string :=
  match s with
  | EmptyString => ""
  | String c s' =>
      if is_sep c || has_sep s' then String c (dir_prefix s') else ""
  end.

Definition Dir (path : string) : string := Clean (dir_prefix path).

(** The [k]-th ancestor of a path. *)
Definition ancestor (k : nat) (path : string) : string := Nat.iter k Dir path.

(** The length of the elements joined by separators, plus one. *)
Definition weight (elems : list string) : nat :=
  foldr (fun e n => String.length e + 1 + n) 0 elems.

(** The measure that decreases on the way up to the root. *)
Definition height (s : string) : nat :=
  if (s =? "/")%string || (s =? ".")%string then 0 else S (String.length s).

(** A path element that [Clean] keeps as it is. *)
Definition is_real (e : string) : bool :=
  negb (has_sep e) && negb (e =? "")%string && negb (e =? ".")%string
  && negb (e =? "..")%string.

(** [filepath.Base]: the last element of the path, trailing separators
    apart; [.] for the empty path and [/] for a path of separators only. *)
Definition Base (path : string) : string :=
  if (path =? "")%string then "."
  else
    default "/"
      (fold_left (fun found e => if (e =? "")%string then found else Some e)
         (split path) None).

End Path.

(** ** Panics and errors *)

(** A Go computation either returns or panics with a message. *)
Inductive exec (A : Type) : Type :=
  | Return (a : A)
  | Panic (msg : string).
Arguments Return {A} a.
Arguments Panic {A} msg.

#[global] Instance exec_ret : MRet exec := fun A a => Return a.
#[global] Instance exec_bind : MBind exec := fun A B f m =>
  match m with
  | Return a => f a
  | Panic msg => Panic msg
  end.

Inductive Errno : Type := ENOENT | EEXIST | ENOTDIR | EISDIR.

(** Go's [error] values met by the code: a failed system call on a path, or
    a failure of the YAML codec. *)
Inductive error : Type :=
  | PathError (op path : string) (errno : Errno)
  | YamlError (msg : string).

Definition errno_string (e : Errno) : string :=
  match e with
  | ENOENT => "no such file or directory"
  | EEXIST => "file exists"
  | ENOTDIR => "not a directory"
  | EISDIR => "is a directory"
  end.

(** [err.Error()] *)
Definition Error (err : error) : string :=
  match err with
  | PathError op path errno => op +:+ " " +:+ path +:+ ": " +:+ errno_string errno
  | YamlError msg => msg
  end.

Inductive result (A : Type) : Type :=
  | Ok (a : A)
  | Err (err : error).
Arguments Ok {A} a.
Arguments Err {A} err.

(** [s[1:]] *)
Definition slice_from1 (s : string) : exec string :=
  match Str.tail1 s with
  | Some s' => Return s'
  | None => Panic "runtime error: slice bounds out of range"
  end.

(** ** The file system

    The data directory as a finite map from cleaned path names to entries.
    [ReadFile], [WriteFile] and [Mkdir] follow [io/ioutil] and [os]: a name
    resolves when it is in the map, and a new entry needs its parent to be
    a directory. File modes are not modelled. *)

Module FS.

Inductive entry : Type :=
  | Directory
  | File (content : string).

Definition ReadFile (fs : gmap string entry) (name : string) : result string :=
  match fs !! name with
  | Some (File content) => Ok content
  | Some Directory => Err (PathError "read" name EISDIR)
  | None => Err (PathError "open" name ENOENT)
  end.

(** The check every creation makes on the parent of the new name. *)
Definition parent_dir (fs : gmap string entry) (op name : string)
  : option error :=
  match fs !! Path.Dir name with
  | Some Directory => None
  | Some (File _) => Some (PathError op name ENOTDIR)
  | None => Some (PathError op name ENOENT)
  end.

Definition WriteFile (fs : gmap string entry) (name data : string)
  : result (gmap string entry) :=
  match fs !! name with
  | Some Directory => Err (PathError "open" name EISDIR)
  | _ =>
      match parent_dir fs "open" name with
      | Some err => Err err
      | None => Ok (<[name := File data]> fs)
      end
  end.

Definition Mkdir (fs : gmap string entry) (name : string)
  : result (gmap string entry) :=
  match fs !! name with
  | Some _ => Err (PathError "mkdir" name EEXIST)
  | None =>
      match parent_dir fs "mkdir" name with
      | Some err => Err err
      | None => Ok (<[name := Directory]> fs)
      end
  end.

(** [os.IsExist(err)] *)
Definition IsExist (err : error) : bool :=
  match err with
  | PathError _ _ EEXIST => true
  | _ => false
  end.

(** [name] is [dir] or lies below it; names are cleaned, so that only the
    root ends with a separator. *)
Definition below (dir name : string) : bool :=
  (name =? dir)%string
  || String.prefix (if (dir =? "/")%string then "/" else dir +:+ "/") name.

(** [os.RemoveAll]: the entry and everything below it go; a name that is
    not there is no error. *)
Definition RemoveAll (fs : gmap string entry) (name : string)
  : result (gmap string entry) :=
  Ok (filter (fun kv => below name kv.1 = false) fs).

End FS.

(** ** The YAML codec

    [goyaml.Marshal] and [goyaml.Unmarshal] at one Go type. [Unmarshal]
    fails, or leaves the destination untouched ([Ok None]: an empty
    document, or a document of another shape), or stores a decoded value. *)
Class Yaml (A : Type) := {
  Marshal : A -> result string;
  Unmarshal : string -> result (option A);
  Unmarshal_empty : Unmarshal "" = Ok None
}.

(** ** Content items and responses *)

Module client.

(** Modelled from the spec: [client.Node] is declared in the client
    package and not in these sources; its fields are those of the record
    file (type tag, title, creation and last-update timestamps and
    actors) and the path, as the test of the store uses them. A timestamp
    is a pointer and may be nil. *)
Record Node : Type := mkNode {
  Path : string;
  Type_ : string;
  Title : string;
  Created : option Z;
  CreatedBy : string;
  LastUpdate : option Z;
  LastUpdateBy : string
}.

(** [node.Path = p] *)
Definition set_Path (node : Node) (p : string) : Node :=
  mkNode p (Type_ node) (Title node) (Created node) (CreatedBy node)
    (LastUpdate node) (LastUpdateBy node).

(** [client.Node{}] *)
Definition zeroNode : Node := mkNode "" "" "" None "" None "".

(** Modelled from the spec: [client.Response] is declared in the client
    package: a body, a redirect target, the raw flag and an optional
    updated node. *)
Record Response : Type := mkResponse {
  Body : string;
  Redirect : string;
  Raw : bool;
  Node_ : option Node
}.

(** [client.Response{}], also what a receive from a closed channel yields *)
Definition zeroResponse : Response := mkResponse "" "" false None.

(** [res.Node = node] *)
Definition set_Node (res : Response) (node : option Node) : Response :=
  mkResponse (Body res) (Redirect res) (Raw res) node.

End client.

(** ** The content store ([node.go]) *)

Section ContentStore.

Context `{!Yaml client.Node}.

(** [lookupNode]: the record stored at [path], with its path set from the
    argument. *)
Definition lookupNode (fs : gmap string FS.entry) (root path : string)
  : exec (result client.Node) :=
  p ← slice_from1 path;
  let node_path := Path.Join [root; p; "node.yaml"] in
  match FS.ReadFile fs node_path with
  | Err err => Return (Err err)
  | Ok content =>
      match Unmarshal content with
      | Err err => Return (Err err)
      | Ok decoded =>
          let node := default client.zeroNode decoded in
          Return (Ok (client.set_Path node path))
      end
  end.

(** [writeNode]: returns the error value and the file system after the
    call. *)
Definition writeNode (fs : gmap string FS.entry) (node : client.Node)
  (root : string) : exec (option error * gmap string FS.entry) :=
  let path := client.Path node in
  let node := client.set_Path node "" in
  match Marshal node with
  | Err err => Return (Some err, fs)
  | Ok content =>
      p ← slice_from1 path;
      let node_path := Path.Join [root; p; "node.yaml"] in
      fs ← match FS.Mkdir fs (Path.Dir node_path) with
           | Err err =>
               if FS.IsExist err then Return fs
               else Panic ("Can't create directory for new node: " +:+ Error err)
           | Ok fs' => Return fs'
           end;
      match FS.WriteFile fs node_path content with
      | Err err => Return (Some err, fs)
      | Ok fs' => Return (None, fs')
      end
  end.

(** [getSidebar]: the loop, bounded by [fuel]; [None] when the bound is
    reached before the loop exits. *)
Fixpoint getSidebar_loop (fuel : nat) (fs : gmap string FS.entry)
  (path root : string) : option string :=
  match fuel with
  | 0 => None
  | S fuel =>
      let file := Path.Join [root; path; "sidebar.html"] in
      match FS.ReadFile fs file with
      | Err _ =>
          if (path =? Path.Dir path)%string then Some ""
          else getSidebar_loop fuel fs (Path.Dir path) root
      | Ok content => Some content
      end
  end.

Definition getSidebar (fs : gmap string FS.entry) (path root : string)
  : option string :=
  getSidebar_loop (String.length path + 2) fs path root.

(** The node at [path] defines sidebar content of its own. *)
Definition has_sidebar (fs : gmap string FS.entry) (root path : string) : Prop :=
  exists content,
    FS.ReadFile fs (Path.Join [root; path; "sidebar.html"]) = Ok content.

(** [getBelowHeader] *)
Definition getBelowHeader (fs : gmap string FS.entry) (path root : string)
  : string :=
  match FS.ReadFile fs (Path.Join [root; path; "below_header.html"]) with
  | Err _ => ""
  | Ok content => content
  end.

End ContentStore.

(** ** Navigation ([node.go]) *)

Record navLink : Type := mkNavLink {
  Name : string;
  Target : string;
  Active : bool
}.

Abbreviation navigation := (list navLink).

(** [link.Active = b] *)
Definition set_Active (link : navLink) (b : bool) : navLink :=
  mkNavLink (Name link) (Target link) b.

(** [link.Target = t] *)
Definition set_Target (link : navLink) (t : string) : navLink :=
  mkNavLink (Name link) t (Active link).

(** [make(navigation, len, cap)] panics on a capacity below the length. *)
Definition makeslice (len cap : Z) : exec navigation :=
  if (len <? 0)%Z then Panic "runtime error: makeslice: len out of range"
  else if (cap <? len)%Z then Panic "runtime error: makeslice: cap out of range"
  else Return (replicate (Z.to_nat len) (mkNavLink "" "" false)).

(** The node at [path] has a navigation file of its own. *)
Definition has_nav (fs : gmap string FS.entry) (root path : string) : Prop :=
  exists content,
    FS.ReadFile fs (Path.Join [root; path; "navigation.yaml"]) = Ok content.

Section Navigation.

Context `{!Yaml navigation}.

(** The read loop of [getNav], entered with the current value of [hasNav]:
    the content read, [hasNav] and [navRoot] when the loop is left. *)
Fixpoint getNav_loop (fuel : nat) (fs : gmap string FS.entry)
  (nodePath : string) (hasNav recursive : bool) (root : string)
  : option (string * bool * string) :=
  match fuel with
  | 0 => None
  | S fuel =>
      let file := Path.Join [root; nodePath; "navigation.yaml"] in
      match FS.ReadFile fs file with
      | Err _ =>
          let hasNav := false in
          let nodePath := Path.Dir nodePath in
          if negb recursive || (nodePath =? Path.Dir nodePath)%string
          then Some ("", hasNav, "")
          else getNav_loop fuel fs nodePath hasNav recursive root
      | Ok content =>
          Some (content, hasNav, if recursive then nodePath else "")
      end
  end.

(** [goyaml.Unmarshal(content, &navLinks)] with the error dropped: the
    slice keeps its value unless a value is decoded. *)
Definition unmarshal_into (content : string) (navLinks : option navigation)
  : option navigation :=
  match Unmarshal content with
  | Ok (Some decoded) => Some decoded
  | _ => navLinks
  end.

(** The marking loop of [getNav]: the first link to the active target is
    set active and the loop is left. *)
Fixpoint mark_active (navLinks : navigation) (active : string) : navigation :=
  match navLinks with
  | [] => []
  | link :: rest =>
      if (Target link =? active)%string then set_Active link true :: rest
      else link :: mark_active rest active
  end.

(** [getNav]; a nil navigation is [None]. *)
Definition getNav_fuel (fuel : nat) (fs : gmap string FS.entry)
  (nodePath active : string) (recursive : bool) (root : string)
  : option (option navigation * string) :=
  match getNav_loop fuel fs nodePath true recursive root with
  | None => None
  | Some (content, hasNav, navRoot) =>
      let navLinks := unmarshal_into content None in
      let navLinks := (fun l => mark_active l active) <$> navLinks in
      if (length (default [] navLinks) =? 0)%nat && hasNav
      then Some (Some [], navRoot)
      else Some (navLinks, navRoot)
  end.

Definition getNav (fs : gmap string FS.entry) (nodePath active : string)
  (recursive : bool) (root : string) : option (option navigation * string) :=
  getNav_fuel (String.length nodePath + 2) fs nodePath active recursive root.

(** [Dump]: returns the file system after the write and the navigation as
    the caller sees it afterwards (the flags are cleared in place). *)
Definition Dump (fs : gmap string FS.entry) (nav : navigation)
  (nodePath root : string) : exec (gmap string FS.entry * navigation) :=
  let nav := (fun link => set_Active link false) <$> nav in
  match Marshal nav with
  | Err err => Panic ("Could not marshal navigation: " +:+ Error err)
  | Ok content =>
      p ← slice_from1 nodePath;
      let path := Path.Join [root; p; "navigation.yaml"] in
      match FS.WriteFile fs path content with
      | Err err => Panic ("Could not write navigation: " +:+ Error err)
      | Ok fs' => Return (fs', nav)
      end
  end.

End Navigation.

(** [MakeAbsolute]: indexing the first byte of an empty target panics. *)
Fixpoint MakeAbsolute (nav : navigation) (root : string) : exec navigation :=
  match nav with
  | [] => Return []
  | link :: rest =>
      match Target link with
      | EmptyString => Panic "runtime error: index out of range"
      | String c _ =>
          let link :=
            if negb (Ascii.eqb c "/")
            then set_Target link (Path.Join [root; Target link])
            else link in
          rest ← MakeAbsolute rest root;
          Return (link :: rest)
      end
  end.

(** Every target of the navigation begins with the separator. *)
Definition absolute (nav : navigation) : Prop :=
  Forall (fun link => Str.rooted (Target link) = true) nav.

(** The link as [MakeAbsolute] leaves it. *)
Definition absolute_link (base : string) (link : navLink) : navLink :=
  if Str.rooted (Target link) then link
  else set_Target link (Path.Join [base; Target link]).

(** [Add] *)
Definition Add (nav : navigation) (name target : string) : navigation :=
  nav ++ [mkNavLink name target false].

(** The loop of [Remove], appending the links that are kept to [ret]. *)
Fixpoint Remove_loop (ret nav : navigation) (target : string) : navigation :=
  match nav with
  | [] => ret
  | v :: rest =>
      if negb (Target v =? target)%string
      then Remove_loop (ret ++ [v]) rest target
      else Remove_loop ret rest target
  end.

(** [Remove]: the result slice is made with the length of the navigation less one as capacity. *)
Definition Remove (nav : navigation) (target : string) : exec navigation :=
  ret ← makeslice 0 (Z.of_nat (length nav) - 1);
  Return (Remove_loop ret nav target).

Section RemoveNode.

Context `{!Yaml navigation}.

(** [removeNode]; the navigation of the parent is read without recursion,
    for which [getNav] never reaches its bound. *)
Definition removeNode (fs : gmap string FS.entry) (path root : string)
  : exec (gmap string FS.entry) :=
  p ← slice_from1 path;
  let nodePath := Path.Join [root; p] in
  let parent := Path.Dir path in
  fs ← (if negb (parent =? path)%string then
          let nav := (default (None, "") (getNav fs parent "" false root)).1 in
          nav ← Remove (default [] nav) (Path.Base path);
          dumped ← Dump fs nav parent root;
          Return dumped.1
        else Return fs);
  match FS.RemoveAll fs nodePath with
  | Err err => Panic ("Can't remove node: " +:+ Error err)
  | Ok fs => Return fs
  end.

End RemoveNode.

(** The action in the last element of a path: what follows [@@], when
    the element is longer than that. *)
Definition action_of (last : string) : string :=
  if (2 <? String.length last)%nat && (String.substring 0 2 last =? "@@")%string
  then String.substring 2 (String.length last - 2) last
  else "".

(** [splitAction] *)
Definition splitAction (path : string) : exec (string * string) :=
  let tokens := Path.split path in
  let last := List.last tokens "" in
  let action := action_of last in
  if (0 <? String.length action)%nat then
    let n := (Z.of_nat (String.length path)
              - (Z.of_nat (String.length action) + 3))%Z in
    if (n <? 0)%Z then Panic "runtime error: slice bounds out of range"
    else
      let nodePath := String.substring 0 (Z.to_nat n) path in
      if (String.length nodePath =? 0)%nat then Return ("/", action)
      else Return (nodePath, action)
  else Return (path, action).

(** ** Dispatch and response projection (the node handler) *)

(** What a receive on a channel observes: a value that was sent, or the
    channel closed with nothing sent. *)
Inductive recv_event (A : Type) : Type :=
  | Received (a : A)
  | Closed.
Arguments Received {A} a.
Arguments Closed {A}.

(** [v := <-c]: a closed channel yields the zero value of its type. *)
Definition recv {A : Type} (zero : A) (ev : recv_event A) : A :=
  match ev with
  | Received a => a
  | Closed => zero
  end.

(** What the handler does with the [http.ResponseWriter]. *)
Inductive HttpResult : Type :=
  | HttpError (msg : string) (code : Z)
  | HttpRedirect (url : string) (code : Z)
  | HttpBody (content : string).

Definition StatusSeeOther : Z := 303.
Definition StatusInternalServerError : Z := 500.

Section Daemon.

(** The request, the two kinds of session and the site settings come from
    packages outside these sources; the code below only passes them on. *)
Context {Request Session ClientSession Site : Type}.

(** [cSession.Locale] and [site.Name] *)
Variable Locale : ClientSession -> string.
Variable SiteName : Site -> string.

(** [EDIT_VIEW], a flag of the master template *)
Variable EDIT_VIEW : Z.

(** The environment of the master template, with the fields the handler
    sets. *)
Record masterTmplEnv : Type := mkEnv {
  EnvNode : client.Node;
  EnvSession : ClientSession;
  EnvTitle : string;
  EnvFlags : Z
}.

(** [renderInMaster(h.Renderer, body, env, h.Settings, site, locale)] *)
Variable renderInMaster : string -> masterTmplEnv -> Site -> string -> string.

(** The localized title of the edit view for a locale and a node title. *)
Variable editTitle : string -> string -> string.

(** [session.Save(r, w)]: the error message, if saving fails. *)
Variable sessionSave : Session -> Request -> option string.

(** A ticket; its reply channel is represented by what the handler
    observes on it. *)
Record Ticket : Type := mkTicket {
  TicketNode : client.Node;
  TicketRequest : Request;
  TicketSession : ClientSession;
  TicketAction : string;
  TicketSite : string
}.

(** The handler: for each node type, the tickets sent to its queue. *)
Record nodeHandler : Type := mkHandler {
  NodeQueues : gmap string (list Ticket)
}.

(** [QueueTicket] *)
Definition QueueTicket (h : nodeHandler) (ticket : Ticket) : exec nodeHandler :=
  let nodeType := client.Type_ (TicketNode ticket) in
  match NodeQueues h !! nodeType with
  | None => Panic ("Missing queue for node type " +:+ nodeType)
  | Some queue => Return (mkHandler (<[nodeType := queue ++ [ticket]]> (NodeQueues h)))
  end.

(** [ProcessNodeResponse] *)
Definition ProcessNodeResponse (res : client.Response) (r : Request)
  (node : client.Node) (action : string) (session : Session)
  (cSession : ClientSession) (site : Site) : exec HttpResult :=
  if (String.length (client.Body res) =? 0)%nat
     && (String.length (client.Redirect res) =? 0)%nat
  then Return (HttpError "Application error." StatusInternalServerError)
  else
    let node :=
      match client.Node_ res with
      | Some updated => client.set_Path updated (client.Path node)
      | None => node
      end in
    if (0 <? String.length (client.Redirect res))%nat
    then Return (HttpRedirect (client.Redirect res) StatusSeeOther)
    else
      let env :=
        if (action =? "edit")%string
        then mkEnv node cSession
               (editTitle (Locale cSession) (client.Title node)) EDIT_VIEW
        else mkEnv node cSession "" 0 in
      let content :=
        if client.Raw res then client.Body res
        else renderInMaster (client.Body res) env site (Locale cSession) in
      match sessionSave session r with
      | Some err => Panic err
      | None => Return (HttpBody content)
      end.

(** [RequestNode]; [worker] is what the worker that takes the ticket does
    with its reply channel. *)
Definition RequestNode (h : nodeHandler)
  (worker : Ticket -> recv_event client.Response) (r : Request)
  (node : client.Node) (action : string) (session : Session)
  (cSession : ClientSession) (site : Site) : exec (nodeHandler * HttpResult) :=
  let ticket := mkTicket node r cSession action (SiteName site) in
  h ← QueueTicket h ticket;
  let res := recv client.zeroResponse (worker ticket) in
  out ← ProcessNodeResponse res r node action session cSession site;
  Return (h, out).

End Daemon.

(** ** The HTTP handler and the worker processes (the node handler) *)

Definition StatusNotFound : Z := 404.
Definition StatusUnauthorized : Z := 401.

(** The request is not one for a path without its final separator. *)
Definition stays (nodePath action : string) : Prop :=
  action <> "" \/ Str.last_byte nodePath = Some "/"%char.

(** The action is handed to a worker. *)
Definition worker_action (action : string) : Prop :=
  action <> "login" /\ action <> "logout" /\ action <> "add" /\ action <> "remove".

Section Server.

Context {Request Session ClientSession Site : Type}.
Context `{!Yaml client.Node}.

Variable Locale : ClientSession -> string.
Variable SiteName : Site -> string.
Variable EDIT_VIEW : Z.
Variable renderInMaster :
  string -> @masterTmplEnv ClientSession -> Site -> string -> string.
Variable editTitle : string -> string -> string.
Variable sessionSave : Session -> Request -> option string.

(** [r.URL.Path] and [r.Host] *)
Variable URLPath : Request -> string.
Variable Host : Request -> string.

(** [url.Parse(path)] resolved against [r.URL] and printed: the target of
    the redirect, or the message of the parse error. *)
Variable resolveReference : Request -> string -> string + string.

(** The site settings: the zero value, [site.Name = name], the data and
    configuration directories and the locale. *)
Variable zeroSite : Site.
Variable setSiteName : Site -> string -> Site.
Variable DataDir : Site -> string.
Variable ConfigDir : Site -> string.
Variable SiteLocale : Site -> string.

(** [getSession], [getClientSession], [cSession.Locale = locale] and
    [checkPermission] *)
Variable getSession : Request -> Site -> Session.
Variable getClientSession : Session -> string -> ClientSession.
Variable setLocale : ClientSession -> string -> ClientSession.
Variable checkPermission : string -> ClientSession -> bool.

(** The handlers of the login, logout, add and remove actions. *)
Variable Login :
  Request -> client.Node -> Session -> ClientSession -> Site -> exec HttpResult.
Variable Logout : Request -> client.Node -> Session -> exec HttpResult.
Variable handleAdd :
  Request -> client.Node -> Session -> ClientSession -> Site -> exec HttpResult.
Variable handleRemove :
  Request -> client.Node -> Session -> ClientSession -> Site -> exec HttpResult.

(** [worker.Run] for the worker of the given name: the message of the
    error when the worker cannot be run. *)
Variable Run : string -> option string.

(** The site and the client session that [ServeHTTP] makes up for a
    request to a known host. *)
Definition site_of (Sites : gmap string Site) (site_name : string) : Site :=
  setSiteName (default zeroSite (Sites !! site_name)) site_name.

Definition session_of (r : Request) (site : Site) : ClientSession :=
  setLocale (getClientSession (getSession r site) (ConfigDir site))
    (SiteLocale site).

(** The body of [ServeHTTP], before the deferred recovery. [Hosts] and
    [Sites] are [h.Hosts] and [h.Settings.Sites]; [fs] is the file system
    the request meets. *)
Definition serve (h : @nodeHandler Request ClientSession)
  (worker : @Ticket Request ClientSession -> recv_event client.Response)
  (Hosts : gmap string string) (Sites : gmap string Site)
  (fs : gmap string FS.entry) (r : Request) : exec HttpResult :=
  parts ← splitAction (URLPath r);
  let nodePath := parts.1 in
  let action := parts.2 in
  no_slash ← (if (String.length action =? 0)%nat then
                match Str.last_byte nodePath with
                | None => Panic "runtime error: index out of range"
                | Some c => Return (negb (Ascii.eqb c "/"))
                end
              else Return false);
  if (no_slash : bool) then
    match resolveReference r (nodePath +:+ "/") with
    | inr err => Panic ("Could not parse request URL:" +:+ err)
    | inl url => Return (HttpRedirect url StatusSeeOther)
    end
  else
    match Hosts !! Host r with
    | None => Panic ("No site found for host " +:+ Host r)
    | Some site_name =>
        let site := default zeroSite (Sites !! site_name) in
        let site := setSiteName site site_name in
        let session := getSession r site in
        let cSession := getClientSession session (ConfigDir site) in
        let cSession := setLocale cSession (SiteLocale site) in
        found ← lookupNode fs (DataDir site) nodePath;
        match found with
        | Err err =>
            Return (HttpError ("Node not found: " +:+ Error err) StatusNotFound)
        | Ok node =>
            if negb (checkPermission action cSession)
            then Return (HttpError "Unauthorized." StatusUnauthorized)
            else if (action =? "login")%string
            then Login r node session cSession site
            else if (action =? "logout")%string
            then Logout r node session
            else if (action =? "add")%string
            then handleAdd r node session cSession site
            else if (action =? "remove")%string
            then handleRemove r node session cSession site
            else
              answered ← RequestNode Locale SiteName EDIT_VIEW renderInMaster
                           editTitle sessionSave h worker r node action
                           session cSession site;
              Return answered.2
        end
    end.

(** [ServeHTTP]: what the client is answered; a panic of the body is
    recovered into the application error. *)
Definition ServeHTTP (h : @nodeHandler Request ClientSession)
  (worker : @Ticket Request ClientSession -> recv_event client.Response)
  (Hosts : gmap string string) (Sites : gmap string Site)
  (fs : gmap string FS.entry) (r : Request) : HttpResult :=
  match serve h worker Hosts Sites fs r with
  | Return out => out
  | Panic _ => HttpError "Application error." StatusInternalServerError
  end.

(** [AddNodeProcess]: the queue of the node type is made unless there is
    one, and the worker is run on it. *)
Definition AddNodeProcess (h : @nodeHandler Request ClientSession)
  (nodeType : string) : exec (@nodeHandler Request ClientSession) :=
  let h :=
    match NodeQueues h !! nodeType with
    | None => mkHandler (<[nodeType := []]> (NodeQueues h))
    | Some _ => h
    end in
  match Run ("monsti-" +:+ nodeType) with
  | Some err => Panic ("Could not run worker: " +:+ err)
  | None => Return h
  end.

End Server.

(** ** Sample data

    A small data directory and two toy codecs, used to run the model on
    concrete inputs. *)

Module Sample.

(** A codec for a site of documents that stores the title of a node and
    nothing else. *)
Definition yaml_node : Yaml client.Node := {|
  Marshal node := Ok (client.Title node);
  Unmarshal content :=
    if (content =? "")%string then Ok None
    else Ok (Some (client.mkNode "" "document" content None "" None ""));
  Unmarshal_empty := eq_refl
|}.

(** A codec that stores the targets of a navigation, separated by slashes,
    and fails on a content that starts with [!]. *)
Definition yaml_nav : Yaml navigation := {|
  Marshal nav := Ok (Path.join (Target <$> nav));
  Unmarshal content :=
    match content with
    | EmptyString => Ok None
    | String "!" _ => Err (YamlError "YAML error: did not find expected node content")
    | _ => Ok (Some ((fun t => mkNavLink t t false) <$> Path.split content))
    end;
  Unmarshal_empty := eq_refl
|}.

Definition data : gmap string FS.entry :=
  list_to_map [
    ("/", FS.Directory);
    ("/data", FS.Directory);
    ("/data/foo", FS.Directory);
    ("/data/foo/node.yaml", FS.File "FooNode");
    ("/data/foo/navigation.yaml", FS.File "a/b/a");
    ("/data/bar", FS.Directory);
    ("/data/bar/node.yaml", FS.File "BarNode");
    ("/data/bar/navigation.yaml", FS.File "!")
  ].

(** The sample data after the node [/foo/baz] is written. *)
Definition data_baz : gmap string FS.entry :=
  <["/data/foo/baz/node.yaml" := FS.File "Baz"]>
    (<["/data/foo/baz" := FS.Directory]> data).

Definition node (path title : string) : client.Node :=
  client.mkNode path "document" title None "" None "".

Definition link (target : string) (active : bool) : navLink :=
  mkNavLink target target active.

(** A handler with a queue for documents, and an environment in which
    requests and sessions carry no data, the master template shows the path
    of its node before the body, and saving the session succeeds. *)
Definition handler : @nodeHandler unit unit :=
  mkHandler (<["document" := []]> ∅).

Definition Locale (cSession : unit) : string := "en".
Definition SiteName (site : unit) : string := "FooSite".
Definition EDIT_VIEW : Z := 1.
Definition renderInMaster (body : string) (env : @masterTmplEnv unit)
  (site : unit) (locale : string) : string :=
  "[" +:+ client.Path (EnvNode env) +:+ "] " +:+ body.
Definition editTitle (locale title : string) : string := "Edit " +:+ title.
Definition sessionSave (session r : unit) : option string := None.

Definition process :=
  ProcessNodeResponse Locale EDIT_VIEW renderInMaster editTitle sessionSave.
Definition request :=
  RequestNode Locale SiteName EDIT_VIEW renderInMaster editTitle sessionSave.

End Sample.

(** ** A sample site

    A data directory with a root node and nodes below it, served for one
    host. A request is a host and a path; sessions and site settings carry
    no data; every action but [secret] is permitted. The codecs are those
    of the sample data. *)

Module Demo.

Definition data : gmap string FS.entry :=
  list_to_map [
    ("/", FS.Directory);
    ("/data", FS.Directory);
    ("/data/node.yaml", FS.File "Home");
    ("/data/navigation.yaml", FS.File "foo/bar");
    ("/data/foo", FS.Directory);
    ("/data/foo/node.yaml", FS.File "Foo");
    ("/data/foo/navigation.yaml", FS.File "a/b/a");
    ("/data/foo/sidebar.html", FS.File "<p>foo</p>");
    ("/data/foo/a", FS.Directory);
    ("/data/foo/a/node.yaml", FS.File "A");
    ("/data/foo/a/x", FS.Directory);
    ("/data/foo/a/x/node.yaml", FS.File "X");
    ("/data/bar", FS.Directory);
    ("/data/bar/node.yaml", FS.File "Bar");
    ("/data/bar/c", FS.Directory);
    ("/data/bar/c/node.yaml", FS.File "C")
  ].

Definition Request : Type := string * string.
Definition Host (r : Request) : string := r.1.
Definition URLPath (r : Request) : string := r.2.
Definition resolveReference (r : Request) (path : string) : string + string :=
  inl path.
Definition setSiteName (site : unit) (name : string) : unit := site.
Definition DataDir (site : unit) : string := "/data".
Definition ConfigDir (site : unit) : string := "/config".
Definition SiteLocale (site : unit) : string := "en".
Definition getSession (r : Request) (site : unit) : unit := tt.
Definition getClientSession (session : unit) (config : string) : unit := tt.
Definition setLocale (cSession : unit) (locale : string) : unit := cSession.
Definition checkPermission (action : string) (cSession : unit) : bool :=
  negb (action =? "secret")%string.
Definition sessionSave (session : unit) (r : Request) : option string := None.
Definition Login (r : Request) (node : client.Node) (session cSession site : unit)
  : exec HttpResult := Return (HttpBody "login").
Definition Logout (r : Request) (node : client.Node) (session : unit)
  : exec HttpResult := Return (HttpRedirect "/" StatusSeeOther).
Definition handleAdd (r : Request) (node : client.Node)
  (session cSession site : unit) : exec HttpResult := Return (HttpBody "add").
Definition handleRemove (r : Request) (node : client.Node)
  (session cSession site : unit) : exec HttpResult := Return (HttpBody "remove").
Definition Run (name : string) : option string := None.

Definition Hosts : gmap string string := <["example.org" := "FooSite"]> ∅.
Definition Sites : gmap string unit := <["FooSite" := tt]> ∅.

Definition handler : @nodeHandler Request unit :=
  mkHandler (<["document" := []]> ∅).

(** A worker that answers with the title of the node as raw body. *)
Definition worker (ticket : @Ticket Request unit) : recv_event client.Response :=
  Received (client.mkResponse (client.Title (TicketNode ticket)) "" true None).

Definition ServeHTTP :=
  @ServeHTTP Request unit unit unit Sample.yaml_node Sample.Locale Sample.SiteName
    Sample.EDIT_VIEW Sample.renderInMaster Sample.editTitle sessionSave URLPath
    Host resolveReference tt setSiteName DataDir ConfigDir SiteLocale getSession
    getClientSession setLocale checkPermission Login Logout handleAdd handleRemove.

Definition AddNodeProcess := @AddNodeProcess Request unit Run.

End Demo.

(** * Properties *)

(** ** Strings *)

Module StrFacts.

Lemma append_cons (c : Ascii.ascii) (s t : string) :
  String c s +:+ t = String c (s +:+ t).
Proof. reflexivity. Qed.

Lemma append_nil_l (s : string) : "" +:+ s = s.
Proof. reflexivity. Qed.

Lemma length_append (s t : string) :
  String.length (s +:+ t) = String.length s + String.length t.
Proof.
  induction s as [|c s IH]; [reflexivity|].
  rewrite append_cons. simpl. now rewrite IH.
Qed.

Lemma append_nil_r (s : string) : s +:+ "" = s.
Proof.
  induction s as [|c s IH]; [reflexivity|].
  rewrite append_cons. now rewrite IH.
Qed.

Lemma append_assoc (s t u : string) : (s +:+ t) +:+ u = s +:+ (t +:+ u).
Proof.
  induction s as [|c s IH]; [reflexivity|].
  rewrite !append_cons. now rewrite IH.
Qed.

End StrFacts.

(** ** Paths *)

Module PathFacts.
Import Path.

Example Clean_ex1 : Clean "/a/./b/../c//" = "/a/c".
Proof. reflexivity. Qed.
Example Clean_ex2 : Clean "a/../../b" = "../b".
Proof. reflexivity. Qed.
Example Clean_ex3 : Clean "/../a" = "/a".
Proof. reflexivity. Qed.
Example Join_ex1 : Join ["/data"; "foo/bar"; "node.yaml"] = "/data/foo/bar/node.yaml".
Proof. reflexivity. Qed.
Example Join_ex2 : Join [""; ""; "node.yaml"] = "node.yaml".
Proof. reflexivity. Qed.
Example Dir_ex1 : Dir "/foo/bar" = "/foo".
Proof. reflexivity. Qed.
Example Dir_ex2 : Dir "/foo" = "/" /\ Dir "/" = "/".
Proof. split; reflexivity. Qed.
Example Dir_ex3 : Dir "foo" = "." /\ Dir "." = "." /\ Dir "" = ".".
Proof. repeat split; reflexivity. Qed.
Example Clean_ex4 : Clean "abc/def/../../../ghi/jkl/../../../mno" = "../../mno".
Proof. reflexivity. Qed.
Example Clean_ex5 : Clean "//abc//" = "/abc" /\ Clean "/abc/def/../../.." = "/".
Proof. split; reflexivity. Qed.
Example Join_ex3 : Join ["a/"; ""] = "a" /\ Join [""; ""] = "" /\ Join ["/"; "a"] = "/a".
Proof. repeat split; reflexivity. Qed.
Example Dir_ex4 : Dir "../../a" = "../.." /\ Dir "../.." = ".." /\ Dir ".." = ".".
Proof. repeat split; reflexivity. Qed.

(** *** Lengths: [Clean] never lengthens a non-empty path *)

Lemma weight_app (l1 l2 : list string) :
  weight (l1 ++ l2) = weight l1 + weight l2.
Proof. induction l1 as [|e l1 IH]; simpl; [reflexivity | rewrite IH; lia]. Qed.

Lemma weight_rev (l : list string) : weight (rev l) = weight l.
Proof.
  induction l as [|e l IH]; simpl; [reflexivity|].
  rewrite weight_app, IH. simpl. lia.
Qed.

Lemma length_join (l : list string) :
  l <> [] -> String.length (join l) + 1 = weight l.
Proof.
  induction l as [|e l IH]; [congruence|]. intros _.
  destruct l as [|e' l]; [simpl; lia|].
  change (join (e :: e' :: l)) with (e +:+ "/" +:+ join (e' :: l)).
  rewrite !StrFacts.length_append.
  change (weight (e :: e' :: l))
    with (String.length e + 1 + weight (e' :: l)).
  rewrite <- IH by congruence. simpl. lia.
Qed.

Lemma split_nonempty (s : string) : split s <> [].
Proof.
  induction s as [|c s IH]; simpl; [congruence|].
  destruct (is_sep c); [congruence|].
  destruct (split s); congruence.
Qed.

Lemma weight_split (s : string) : weight (split s) = String.length s + 1.
Proof.
  induction s as [|c s IH]; simpl; [reflexivity|].
  destruct (is_sep c); simpl; [rewrite IH; lia|].
  pose proof (split_nonempty s) as Hne.
  destruct (split s) as [|e es]; [congruence|].
  simpl in *. lia.
Qed.

Lemma clean_step_weight (r : bool) (out : list string) (e : string) :
  weight (clean_step r out e) <= weight out + weight [e].
Proof.
  unfold clean_step.
  destruct (e =? "")%string; [lia|].
  destruct (e =? ".")%string; [lia|].
  destruct (e =? "..")%string; [|simpl; lia].
  destruct out as [|top out]; [destruct r; simpl; lia|].
  destruct (top =? "..")%string; simpl; lia.
Qed.

Lemma clean_elems_weight (r : bool) (elems out : list string) :
  weight (clean_elems r out elems) <= weight out + weight elems.
Proof.
  unfold clean_elems. revert out.
  induction elems as [|e elems IH]; intros out; simpl; [lia|].
  etransitivity; [apply IH|].
  pose proof (clean_step_weight r out e). simpl in *. lia.
Qed.

Lemma rooted_split (s : string) :
  Str.rooted s = true -> exists s', s = String "/" s' /\ split s = "" :: split s'.
Proof.
  destruct s as [|c s]; simpl; [discriminate|].
  intros Hc. exists s. unfold is_sep. rewrite Hc.
  apply Ascii.eqb_eq in Hc. now subst.
Qed.

Lemma Clean_length (s : string) :
  s <> "" -> String.length (Clean s) <= String.length s.
Proof.
  intros Hs. unfold Clean.
  apply String.eqb_neq in Hs as Hs'. rewrite Hs'.
  destruct (Str.rooted s) eqn:Hr.
  - destruct (rooted_split s Hr) as (s' & -> & Hsplit).
    rewrite Hsplit.
    change (clean_elems true [] ("" :: split s'))
      with (clean_elems true [] (split s')).
    pose proof (clean_elems_weight true (split s') []) as Hw.
    rewrite weight_split in Hw. rewrite <- weight_rev in Hw.
    rewrite StrFacts.append_cons, StrFacts.append_nil_l. simpl String.length.
    destruct (rev (clean_elems true [] (split s'))) as [|e l] eqn:Hout.
    + simpl. lia.
    + pose proof (length_join (e :: l) ltac:(congruence)) as Hj.
      simpl weight in *. lia.
  - pose proof (clean_elems_weight false (split s) []) as Hw.
    rewrite weight_split in Hw. rewrite <- weight_rev in Hw.
    destruct (rev (clean_elems false [] (split s))) as [|e l] eqn:Hout.
    + destruct s; [congruence | simpl; lia].
    + pose proof (length_join (e :: l) ltac:(congruence)) as Hj.
      simpl weight in *. lia.
Qed.

(** *** A trailing separator is dropped *)

Lemma split_snoc_sep (s : string) : split (s +:+ "/") = split s ++ [""].
Proof.
  induction s as [|c s IH]; [reflexivity|].
  rewrite StrFacts.append_cons. simpl.
  destruct (is_sep c); [now rewrite IH|].
  rewrite IH. pose proof (split_nonempty s).
  destruct (split s); [congruence | reflexivity].
Qed.

Lemma Clean_snoc_sep (s : string) : s <> "" -> Clean (s +:+ "/") = Clean s.
Proof.
  intros Hs. unfold Clean.
  destruct s as [|c s]; [congruence|].
  rewrite split_snoc_sep. unfold clean_elems.
  rewrite fold_left_app. reflexivity.
Qed.

(** *** The parent of a path *)

Lemma dir_prefix_no_sep (s : string) : has_sep s = false -> dir_prefix s = "".
Proof.
  destruct s as [|c s]; simpl; [reflexivity|]. now intros ->.
Qed.

Lemma dir_prefix_sep (s : string) :
  has_sep s = true ->
  exists t, dir_prefix s = t +:+ "/" /\ String.length t < String.length s.
Proof.
  induction s as [|c s IH]; simpl; [discriminate|]. intros Hc. rewrite Hc.
  destruct (has_sep s) eqn:Hs.
  - destruct IH as (t & -> & Hlen); [reflexivity|].
    exists (String c t). split; [reflexivity | simpl; lia].
  - rewrite orb_false_r in Hc. apply Ascii.eqb_eq in Hc as ->.
    rewrite dir_prefix_no_sep by assumption.
    exists "". split; [reflexivity | simpl; lia].
Qed.

Lemma Dir_cases (s : string) :
  Dir s = "." \/ Dir s = "/" \/ String.length (Dir s) < String.length s.
Proof.
  unfold Dir. destruct (has_sep s) eqn:Hs.
  - destruct (dir_prefix_sep s Hs) as (t & -> & Hlen).
    destruct t as [|c t]; [right; left; reflexivity|].
    right; right. rewrite Clean_snoc_sep by congruence.
    pose proof (Clean_length (String c t)) as Hc.
    specialize (Hc ltac:(congruence)). lia.
  - left. now rewrite dir_prefix_no_sep.
Qed.

(** The walk to the root stops at [/] or at [.], and nowhere else. *)
Lemma Dir_fixpoint (s : string) : Dir s = s <-> s = "/" \/ s = ".".
Proof.
  split.
  - intros H. destruct (Dir_cases s) as [Hd|[Hd|Hd]].
    + right. congruence.
    + left. congruence.
    + rewrite H in Hd. lia.
  - intros [->| ->]; reflexivity.
Qed.

Lemma height_le (s : string) : height s <= String.length s + 1.
Proof. unfold height. destruct (_ || _); lia. Qed.

Lemma height_0 (s : string) : height s = 0 <-> Dir s = s.
Proof.
  rewrite Dir_fixpoint. unfold height.
  destruct (String.eqb_spec s "/"); simpl; [tauto|].
  destruct (String.eqb_spec s "."); simpl; [tauto|].
  split; [discriminate | tauto].
Qed.

Lemma Dir_height (s : string) : Dir s <> s -> height (Dir s) < height s.
Proof.
  intros Hne.
  assert (0 < height s) as Hpos.
  { destruct (height s) eqn:Hh; [|lia]. apply height_0 in Hh. congruence. }
  destruct (Dir_cases s) as [Hd|[Hd|Hd]].
  - rewrite Hd. exact Hpos.
  - rewrite Hd. exact Hpos.
  - unfold height in *.
    destruct ((s =? "/")%string || (s =? ".")%string); [lia|].
    destruct (_ || _); lia.
Qed.

Lemma ancestor_Dir (k : nat) (s : string) :
  ancestor k (Dir s) = ancestor (S k) s.
Proof. unfold ancestor. now rewrite Nat.iter_succ_r. Qed.

(** Every path has a first ancestor that is its own parent, at most
    [height] steps up. *)
Lemma root_reached (s : string) :
  exists k, k <= height s /\
    Dir (ancestor k s) = ancestor k s /\
    forall j, j < k -> Dir (ancestor j s) <> ancestor j s.
Proof.
  remember (height s) as h eqn:Hh.
  revert s Hh. induction h as [h IH] using lt_wf_ind. intros s Hh.
  destruct (String.eqb_spec (Dir s) s) as [Heq|Hne].
  - exists 0. split; [lia|]. split; [exact Heq|]. intros j Hj. lia.
  - pose proof (Dir_height s Hne) as Hlt.
    destruct (IH (height (Dir s)) ltac:(lia) (Dir s) eq_refl)
      as (k & Hk & Hfix & Hbefore).
    exists (S k). split; [lia|].
    rewrite <- ancestor_Dir. split; [exact Hfix|].
    intros [|j] Hj; [exact Hne|].
    rewrite <- ancestor_Dir. apply Hbefore. lia.
Qed.

(** *** The last element of a joined path *)

Lemma split_app_sep (t u : string) :
  split (t +:+ "/" +:+ u) = split t ++ split u.
Proof.
  induction t as [|c t IH]; [reflexivity|].
  rewrite StrFacts.append_cons. simpl.
  destruct (is_sep c); [now rewrite IH|].
  rewrite IH. pose proof (split_nonempty t).
  destruct (split t); [congruence | reflexivity].
Qed.

Lemma split_no_sep (s : string) : has_sep s = false -> split s = [s].
Proof.
  induction s as [|c s IH]; simpl; [reflexivity|].
  intros H. apply orb_false_iff in H as [-> Hs].
  now rewrite IH.
Qed.

Lemma split_join_snoc (name : string) (elems : list string) (e : string) :
  has_sep name = false ->
  exists l, split (join (e :: elems ++ [name])) = l ++ [name].
Proof.
  intros Hname. revert e.
  induction elems as [|e' elems IH]; intros e.
  - exists (split e). simpl app.
    change (join [e; name]) with (e +:+ "/" +:+ name).
    now rewrite split_app_sep, (split_no_sep name).
  - destruct (IH e') as [l Hl]. exists (split e ++ l).
    change (join (e :: (e' :: elems) ++ [name]))
      with (e +:+ "/" +:+ join (e' :: elems ++ [name])).
    rewrite split_app_sep, Hl. now rewrite app_assoc.
Qed.

Lemma clean_step_real (r : bool) (out : list string) (e : string) :
  is_real e = true -> clean_step r out e = e :: out.
Proof.
  unfold is_real, clean_step. intros H.
  repeat (apply andb_true_iff in H as [H ?]).
  repeat match goal with
         | Hn : negb ?b = true |- _ => apply negb_true_iff in Hn; try rewrite Hn
         end.
  reflexivity.
Qed.

Lemma Clean_last_length (s name : string) (l : list string) :
  split s = l ++ [name] -> is_real name = true ->
  String.length name <= String.length (Clean s).
Proof.
  intros Hsplit Hreal. unfold Clean.
  destruct (String.eqb_spec s "") as [->|_].
  { destruct l as [|? [|? ?]]; simpl in Hsplit; try discriminate.
    injection Hsplit as <-. discriminate. }
  rewrite Hsplit. unfold clean_elems. rewrite fold_left_app. simpl fold_left.
  rewrite clean_step_real by assumption. simpl rev.
  set (out := rev _).
  pose proof (length_join (out ++ [name])) as Hj.
  rewrite weight_app in Hj. simpl in Hj.
  specialize (Hj ltac:(intros Happ; now apply app_eq_nil in Happ as [_ ?])).
  destruct (Str.rooted s).
  - rewrite StrFacts.length_append. lia.
  - destruct (out ++ [name]) eqn:Hout; [|lia].
    now apply app_eq_nil in Hout as [_ ?].
Qed.

Lemma Join_last_length (name : string) (elems : list string) :
  is_real name = true ->
  String.length name <= String.length (Join (elems ++ [name])).
Proof.
  intros Hreal.
  assert (has_sep name = false) as Hsep.
  { unfold is_real in Hreal. repeat (apply andb_true_iff in Hreal as [Hreal ?]).
    now apply negb_true_iff. }
  assert (name <> "") as Hne.
  { intros ->. discriminate. }
  induction elems as [|e elems IH].
  - simpl. apply String.eqb_neq in Hne as ->.
    apply (Clean_last_length name name []); [|assumption].
    now rewrite split_no_sep.
  - change (Join ((e :: elems) ++ [name]))
      with (if (e =? "")%string then Join (elems ++ [name])
            else Clean (join (e :: elems ++ [name]))).
    destruct (e =? "")%string; [exact IH|].
    destruct (split_join_snoc name elems e Hsep) as [l Hl].
    now apply (Clean_last_length _ name l).
Qed.

(** A path joined from a file name of two bytes or more is not its own
    parent. *)
Lemma Join_file_not_root (name : string) (elems : list string) :
  is_real name = true -> 2 <= String.length name ->
  Dir (Join (elems ++ [name])) <> Join (elems ++ [name]).
Proof.
  intros Hreal Hlen Hfix.
  pose proof (Join_last_length name elems Hreal) as Hj.
  apply Dir_fixpoint in Hfix as [H|H]; rewrite H in Hj; simpl in Hj; lia.
Qed.

End PathFacts.

(** ** The upward search for the sidebar *)

Module SidebarFacts.
Import Path PathFacts.

Lemma ReadFile_absent (fs : gmap string FS.entry) (root path : string) :
  ~ has_sidebar fs root path ->
  exists err, FS.ReadFile fs (Join [root; path; "sidebar.html"]) = Err err.
Proof.
  intros Hno. unfold has_sidebar in Hno.
  destruct (FS.ReadFile fs _) as [content|err] eqn:Hread; [|eauto].
  exfalso. eauto.
Qed.

Lemma getSidebar_loop_S (fuel : nat) (fs : gmap string FS.entry)
  (path root : string) :
  getSidebar_loop (S fuel) fs path root =
  match FS.ReadFile fs (Join [root; path; "sidebar.html"]) with
  | Err _ =>
      if (path =? Dir path)%string then Some ""
      else getSidebar_loop fuel fs (Dir path) root
  | Ok content => Some content
  end.
Proof. reflexivity. Qed.

(** With more fuel than the height of the path the loop exits. *)
Lemma getSidebar_loop_total (fs : gmap string FS.entry) (root : string) :
  forall fuel path, height path < fuel ->
    exists content, getSidebar_loop fuel fs path root = Some content.
Proof.
  induction fuel as [|fuel IH]; intros path Hfuel; [lia|].
  rewrite getSidebar_loop_S. destruct (FS.ReadFile fs _) as [content|err]; [eauto|].
  destruct (String.eqb_spec path (Dir path)) as [Heq|Hne]; [eauto|].
  apply IH. assert (Dir path <> path) as Hne' by congruence.
  pose proof (Dir_height path Hne'). lia.
Qed.

(** The loop on a path whose first [k] ancestors define no sidebar and are
    not their own parents, while the [k]-th ancestor is: it needs exactly
    [k + 1] rounds and then returns the empty string. *)
Lemma getSidebar_loop_walk (fs : gmap string FS.entry) (root : string) :
  forall k path fuel,
    (forall j, j <= k -> ~ has_sidebar fs root (ancestor j path)) ->
    (forall j, j < k -> Dir (ancestor j path) <> ancestor j path) ->
    Dir (ancestor k path) = ancestor k path ->
    getSidebar_loop fuel fs path root = if decide (fuel <= k) then None else Some "".
Proof.
  induction k as [|k IH]; intros path fuel Hno Hbefore Hfix.
  - destruct fuel as [|fuel]; [reflexivity|].
    destruct (decide (S fuel <= 0)) as [?|_]; [lia|].
    rewrite getSidebar_loop_S.
    destruct (ReadFile_absent fs root path (Hno 0 ltac:(lia))) as [err ->].
    simpl in Hfix. rewrite Hfix, String.eqb_refl. reflexivity.
  - destruct fuel as [|fuel].
    { destruct (decide (0 <= S k)); [reflexivity | lia]. }
    rewrite getSidebar_loop_S.
    destruct (ReadFile_absent fs root path (Hno 0 ltac:(lia))) as [err ->].
    destruct (String.eqb_spec path (Dir path)) as [Heq|_].
    { exfalso. apply (Hbefore 0 ltac:(lia)). simpl. congruence. }
    rewrite (IH (Dir path) fuel).
    + destruct (decide (fuel <= k)), (decide (S fuel <= S k)); (reflexivity || lia).
    + intros j Hj. rewrite ancestor_Dir. apply Hno. lia.
    + intros j Hj. rewrite ancestor_Dir. apply Hbefore. lia.
    + rewrite ancestor_Dir. exact Hfix.
Qed.

(** C3: [getSidebar] returns for every path; and when no ancestor of the
    path, the root included, defines a sidebar, the walk goes up to the
    first ancestor [k] that is its own parent and to no other, takes
    exactly [k + 1] rounds, and returns the empty string. *)
Theorem getSidebar_terminates (fs : gmap string FS.entry) (path root : string) :
  (exists content, getSidebar fs path root = Some content) /\
  ((forall k, ~ has_sidebar fs root (ancestor k path)) ->
   exists k,
     k <= String.length path + 1 /\
     Dir (ancestor k path) = ancestor k path /\
     (forall j, j < k -> Dir (ancestor j path) <> ancestor j path) /\
     (forall fuel, fuel <= k -> getSidebar_loop fuel fs path root = None) /\
     (forall fuel, k < fuel -> getSidebar_loop fuel fs path root = Some "") /\
     getSidebar fs path root = Some "").
Proof.
  split.
  - apply getSidebar_loop_total. pose proof (height_le path). lia.
  - intros Hno.
    destruct (root_reached path) as (k & Hk & Hfix & Hbefore).
    pose proof (height_le path) as Hh.
    assert (forall fuel, getSidebar_loop fuel fs path root
                         = if decide (fuel <= k) then None else Some "") as Hloop.
    { intros fuel. apply getSidebar_loop_walk; auto. }
    exists k. repeat split; try assumption.
    + lia.
    + intros fuel Hfuel. rewrite Hloop. destruct (decide (fuel <= k)); [reflexivity | lia].
    + intros fuel Hfuel. rewrite Hloop. destruct (decide (fuel <= k)); [lia | reflexivity].
    + unfold getSidebar. rewrite Hloop.
      destruct (decide (String.length path + 2 <= k)); [lia | reflexivity].
Qed.

End SidebarFacts.

(** ** The content store *)

Section StoreFacts.

Context `{!Yaml client.Node}.

Import Path PathFacts.
#[local] Arguments Join : simpl never.
#[local] Arguments Dir : simpl never.

Lemma set_Path_restore (node : client.Node) :
  client.set_Path (client.set_Path node "") (client.Path node) = node.
Proof. now destruct node. Qed.

Lemma slice_from1_Some (s p : string) :
  Str.tail1 s = Some p -> slice_from1 s = Return p.
Proof. unfold slice_from1. now intros ->. Qed.

Lemma rooted_tail1 (s : string) :
  Str.rooted s = true -> exists p, Str.tail1 s = Some p.
Proof. destruct s as [|c s]; simpl; [discriminate | eauto]. Qed.

(** A successful [WriteFile] leaves the data under the name. *)
Lemma WriteFile_Ok (fs fs' : gmap string FS.entry) (name data : string) :
  FS.WriteFile fs name data = Ok fs' -> fs' = <[name := FS.File data]> fs.
Proof.
  unfold FS.WriteFile. intros Hw.
  destruct (fs !! name) as [[|?]|]; try discriminate;
    destruct (FS.parent_dir fs "open" name); now inversion Hw.
Qed.

Lemma ReadFile_insert (fs : gmap string FS.entry) (name data : string) :
  FS.ReadFile (<[name := FS.File data]> fs) name = Ok data.
Proof. unfold FS.ReadFile. now rewrite lookup_insert_eq. Qed.

(** The record file of a node is never the directory that holds it. *)
Lemma node_path_not_dir (root p : string) :
  Dir (Join [root; p; "node.yaml"]) <> Join [root; p; "node.yaml"].
Proof. apply (Join_file_not_root "node.yaml" [root; p]); [reflexivity | simpl; lia]. Qed.

(** [lookupNode] takes the path of its result from its argument. *)
Lemma lookupNode_path (fs : gmap string FS.entry) (root path : string)
  (node : client.Node) :
  lookupNode fs root path = Return (Ok node) -> client.Path node = path.
Proof.
  unfold lookupNode. destruct (slice_from1 path) as [p|msg]; simpl; [|discriminate].
  destruct (FS.ReadFile fs _) as [content|err]; [|discriminate].
  destruct (Unmarshal content) as [decoded|err]; [|discriminate].
  intros Hret. inversion Hret. now destruct (default client.zeroNode decoded).
Qed.

(** C2: a node whose path is absolute and whose record goes through the
    codec unchanged is found again as it was written: after a [writeNode]
    that returned no error, [lookupNode] at the node's path returns the
    node. The file holds the serialization of the node with its path
    blanked, and whatever a record file holds, the path of a node that
    [lookupNode] returns is the path that was asked for. *)
Theorem writeNode_lookupNode (fs fs' : gmap string FS.entry)
  (node : client.Node) (root content : string) :
  Str.rooted (client.Path node) = true ->
  Marshal (client.set_Path node "") = Ok content ->
  Unmarshal content = Ok (Some (client.set_Path node "")) ->
  writeNode fs node root = Return (None, fs') ->
  lookupNode fs' root (client.Path node) = Return (Ok node) /\
  (exists p, Str.tail1 (client.Path node) = Some p /\
     fs' !! Join [root; p; "node.yaml"] = Some (FS.File content)) /\
  (forall fs0 root0 path0 found,
     lookupNode fs0 root0 path0 = Return (Ok found) -> client.Path found = path0).
Proof.
  intros Habs Hmarshal Hunmarshal Hwrite.
  destruct (rooted_tail1 _ Habs) as [p Hp].
  unfold writeNode in Hwrite. rewrite Hmarshal in Hwrite.
  rewrite (slice_from1_Some _ _ Hp) in Hwrite. simpl in Hwrite.
  set (node_path := Join [root; p; "node.yaml"]) in *.
  assert (exists fs1, FS.WriteFile fs1 node_path content = Ok fs') as [fs1 Hfs1].
  { destruct (FS.Mkdir fs (Dir node_path)) as [fs1|err].
    - simpl in Hwrite. exists fs1.
      destruct (FS.WriteFile fs1 node_path content); now inversion Hwrite.
    - destruct (FS.IsExist err); simpl in Hwrite; [|discriminate].
      exists fs. destruct (FS.WriteFile fs node_path content); now inversion Hwrite. }
  apply WriteFile_Ok in Hfs1 as ->.
  split; [|split].
  - unfold lookupNode. rewrite (slice_from1_Some _ _ Hp). simpl.
    fold node_path. rewrite ReadFile_insert, Hunmarshal. simpl.
    now rewrite set_Path_restore.
  - exists p. split; [assumption|]. now rewrite lookup_insert_eq.
  - intros fs0 root0 path0 found. apply lookupNode_path.
Qed.

(** C9, as the code has it: a serialization error is returned. With the
    record serialized, [writeNode] creates the directory of the node when
    it is absent and its parent is a directory, and writes the record; it
    writes the record without complaint when the directory exists; it
    returns the error of a failed file write; and it panics when the
    directory is absent and its parent is not a directory. *)
Theorem writeNode_creates_own_directory (fs : gmap string FS.entry)
  (node : client.Node) (root p : string) :
  Str.tail1 (client.Path node) = Some p ->
  let node_path := Join [root; p; "node.yaml"] in
  let dir := Dir node_path in
  (forall err, Marshal (client.set_Path node "") = Err err ->
     writeNode fs node root = Return (Some err, fs)) /\
  (forall content, Marshal (client.set_Path node "") = Ok content ->
     (fs !! dir = None -> fs !! Dir dir = Some FS.Directory ->
      fs !! node_path <> Some FS.Directory ->
      writeNode fs node root =
        Return (None, <[node_path := FS.File content]> (<[dir := FS.Directory]> fs))) /\
     (fs !! dir = Some FS.Directory -> fs !! node_path <> Some FS.Directory ->
      writeNode fs node root = Return (None, <[node_path := FS.File content]> fs)) /\
     (fs !! dir = Some FS.Directory -> fs !! node_path = Some FS.Directory ->
      writeNode fs node root =
        Return (Some (PathError "open" node_path EISDIR), fs)) /\
     (fs !! dir = None -> fs !! Dir dir <> Some FS.Directory ->
      exists msg, writeNode fs node root = Panic msg)).
Proof.
  intros Hp node_path dir. split.
  - intros err Hmarshal. unfold writeNode. now rewrite Hmarshal.
  - intros content Hmarshal. unfold writeNode. rewrite Hmarshal.
    rewrite (slice_from1_Some _ _ Hp). simpl. fold node_path. fold dir.
    pose proof (node_path_not_dir root p) as Hne. fold node_path in Hne. fold dir in Hne.
    repeat split.
    + intros Hdir Hparent Hfile. unfold FS.Mkdir, FS.parent_dir.
      rewrite Hdir, Hparent. simpl.
      unfold FS.WriteFile, FS.parent_dir. fold dir.
      rewrite lookup_insert_ne by exact Hne. rewrite lookup_insert_eq.
      destruct (fs !! node_path) as [[|?]|]; [congruence|reflexivity|reflexivity].
    + intros Hdir Hfile. unfold FS.Mkdir. rewrite Hdir. simpl.
      unfold FS.WriteFile, FS.parent_dir. fold dir. rewrite Hdir.
      destruct (fs !! node_path) as [[|?]|]; [congruence|reflexivity|reflexivity].
    + intros Hdir Hfile. unfold FS.Mkdir. rewrite Hdir. simpl.
      unfold FS.WriteFile. now rewrite Hfile.
    + intros Hdir Hparent. unfold FS.Mkdir, FS.parent_dir. rewrite Hdir.
      destruct (fs !! Dir dir) as [[|?]|]; [congruence| |]; simpl; eauto.
Qed.

End StoreFacts.

(** ** Navigation *)

Section NavFacts.

Context `{!Yaml navigation}.

Import Path PathFacts.
#[local] Arguments Join : simpl never.
#[local] Arguments Dir : simpl never.

(** A navigation file that is there ends the read loop at once. *)
Lemma getNav_loop_found (fuel : nat) (fs : gmap string FS.entry)
  (nodePath root content : string) (hasNav recursive : bool) :
  FS.ReadFile fs (Join [root; nodePath; "navigation.yaml"]) = Ok content ->
  getNav_loop (S fuel) fs nodePath hasNav recursive root
  = Some (content, hasNav, if recursive then nodePath else "").
Proof. intros Hread. simpl. now rewrite Hread. Qed.

(** Without recursion a missing navigation file ends the loop as well. *)
Lemma getNav_loop_missing (fuel : nat) (fs : gmap string FS.entry)
  (nodePath root : string) (hasNav : bool) (err : error) :
  FS.ReadFile fs (Join [root; nodePath; "navigation.yaml"]) = Err err ->
  getNav_loop (S fuel) fs nodePath hasNav false root = Some ("", false, "").
Proof. intros Hread. simpl. now rewrite Hread. Qed.

(** The read loop exits for every path. *)
Lemma getNav_loop_total (fs : gmap string FS.entry) (root : string)
  (recursive : bool) :
  forall fuel nodePath hasNav, height nodePath < fuel ->
    exists r, getNav_loop fuel fs nodePath hasNav recursive root = Some r.
Proof.
  induction fuel as [|fuel IH]; intros nodePath hasNav Hfuel; [lia|].
  simpl. destruct (FS.ReadFile fs _) as [content|err]; [eauto|].
  destruct (negb recursive || (Dir nodePath =? Dir (Dir nodePath))%string) eqn:Hstop;
    [eauto|].
  apply IH. destruct (String.eqb_spec nodePath (Dir nodePath)) as [Heq|Hne].
  - apply orb_false_iff in Hstop as [_ Hstop].
    apply String.eqb_neq in Hstop. exfalso. apply Hstop. congruence.
  - assert (Dir nodePath <> nodePath) as Hne' by congruence.
    pose proof (Dir_height nodePath Hne'). lia.
Qed.

Lemma getNav_total (fs : gmap string FS.entry) (nodePath active root : string)
  (recursive : bool) :
  exists r, getNav fs nodePath active recursive root = Some r.
Proof.
  unfold getNav, getNav_fuel.
  destruct (getNav_loop_total fs root recursive
              (String.length nodePath + 2) nodePath true) as [[[content hasNav] navRoot] ->].
  { pose proof (height_le nodePath). lia. }
  destruct (_ && _); eauto.
Qed.

(** The marking loop stops at the first link to the active target. *)
Lemma mark_active_first (before rest : navigation) (first : navLink)
  (active : string) :
  Forall (fun link => Target link <> active) before ->
  Target first = active ->
  mark_active (before ++ first :: rest) active
  = before ++ set_Active first true :: rest.
Proof.
  intros Hbefore Hfirst.
  induction before as [|link before IH]; simpl.
  - apply String.eqb_eq in Hfirst as ->. reflexivity.
  - inversion Hbefore as [|? ? Hlink Hbefore']; subst.
    apply String.eqb_neq in Hlink as ->. now rewrite IH.
Qed.

(** Without a link to the active target nothing is marked. *)
Lemma mark_active_none (nav : navigation) (active : string) :
  Forall (fun link => Target link <> active) nav ->
  mark_active nav active = nav.
Proof.
  induction 1 as [|link nav Hlink _ IH]; simpl; [reflexivity|].
  apply String.eqb_neq in Hlink as ->. now rewrite IH.
Qed.

(** The marking of [getNav] on a navigation file with a link to the active
    target: the first such link is set active, and every other link is
    returned as it was decoded, its flag included. *)
Lemma getNav_marks_first (fs : gmap string FS.entry)
  (nodePath active root content : string) (recursive : bool)
  (before rest : navigation) (first : navLink) :
  FS.ReadFile fs (Join [root; nodePath; "navigation.yaml"]) = Ok content ->
  Unmarshal content = Ok (Some (before ++ first :: rest)) ->
  Forall (fun link => Target link <> active) before ->
  Target first = active ->
  getNav fs nodePath active recursive root
  = Some (Some (before ++ set_Active first true :: rest),
          if recursive then nodePath else "").
Proof.
  intros Hread Hdecode Hbefore Hfirst.
  unfold getNav, getNav_fuel.
  replace (String.length nodePath + 2) with (S (String.length nodePath + 1)) by lia.
  rewrite (getNav_loop_found _ _ _ _ _ true _ Hread).
  unfold unmarshal_into. rewrite Hdecode. simpl fmap.
  rewrite mark_active_first by assumption.
  simpl default. rewrite length_app. simpl length.
  now replace (length before + S (length rest) =? 0)%nat
    with false by (symmetry; apply Nat.eqb_neq; lia).
Qed.

(** A flag that the navigation file stores on a later link is not cleared
    by the marking: the links are inactive in the files that [Dump]
    writes, and the next theorem is about such files. *)
Example mark_active_keeps_stored_flag :
  mark_active [mkNavLink "A" "a" false; mkNavLink "B" "b" false;
               mkNavLink "A2" "a" true] "a"
  = [mkNavLink "A" "a" true; mkNavLink "B" "b" false; mkNavLink "A2" "a" true].
Proof. reflexivity. Qed.

(** C4: in a navigation with two links (or more) to the active target,
    decoded from a navigation file that stores no active flag (as [Dump]
    writes it), [getNav] sets the first of them active and no other: the
    navigation returned is the decoded one with that flag set, and a link
    of it is active exactly when it stands at the place of the first link
    to the active target; the later links to the active target, the
    second among them, are inactive. *)
Theorem getNav_marks_first_only (fs : gmap string FS.entry)
  (nodePath active root content : string) (recursive : bool)
  (before between after : navigation) (first second : navLink) :
  FS.ReadFile fs (Join [root; nodePath; "navigation.yaml"]) = Ok content ->
  Unmarshal content = Ok (Some (before ++ first :: between ++ second :: after)) ->
  Forall (fun link => Active link = false)
    (before ++ first :: between ++ second :: after) ->
  Forall (fun link => Target link <> active) before ->
  Target first = active ->
  Target second = active ->
  let marked := before ++ set_Active first true :: between ++ second :: after in
  getNav fs nodePath active recursive root
  = Some (Some marked, if recursive then nodePath else "") /\
  (forall i link,
     marked !! i = Some link -> (Active link = true <-> i = length before)) /\
  Active second = false /\
  Forall (fun link => Active link = false) (between ++ second :: after).
Proof.
  intros Hread Hdecode Hinactive Hbefore Hfirst _ marked.
  apply Forall_app in Hinactive as [Hinb Hinr].
  apply Forall_cons in Hinr as [_ Hinr].
  split; [now apply (getNav_marks_first fs nodePath active root content)|].
  split; [|split; [|exact Hinr]].
  - intros i link Hlookup. unfold marked in Hlookup.
    destruct (Nat.lt_trichotomy i (length before)) as [Hlt|[Heq|Hgt]].
    + rewrite lookup_app_l in Hlookup by exact Hlt.
      apply list_elem_of_lookup_2 in Hlookup.
      rewrite Forall_forall in Hinb. rewrite (Hinb link Hlookup).
      split; [discriminate | lia].
    + subst i. rewrite list_lookup_middle in Hlookup by reflexivity.
      injection Hlookup as <-. split; reflexivity.
    + rewrite lookup_app_r in Hlookup by lia.
      destruct (i - length before) as [|j] eqn:Hj; [lia|].
      simpl in Hlookup. apply list_elem_of_lookup_2 in Hlookup.
      rewrite Forall_forall in Hinr. rewrite (Hinr link Hlookup).
      split; [discriminate | lia].
  - apply Forall_app in Hinr as [_ Hinr].
    now apply Forall_cons in Hinr as [? _].
Qed.

(** C10: a navigation file that is there but decodes to no list of links
    (the codec fails, or stores nothing) gives the empty navigation, which
    is not the nil navigation of a node without a navigation file; no error
    is reported in either case. *)
Theorem getNav_unparsable_is_empty (fs : gmap string FS.entry)
  (nodePath active root content : string) (recursive : bool) :
  FS.ReadFile fs (Join [root; nodePath; "navigation.yaml"]) = Ok content ->
  (forall nav, Unmarshal content <> Ok (Some nav)) ->
  getNav fs nodePath active recursive root
  = Some (Some [], if recursive then nodePath else "") /\
  (forall fs0 err,
     FS.ReadFile fs0 (Join [root; nodePath; "navigation.yaml"]) = Err err ->
     getNav fs0 nodePath active false root = Some (None, "")).
Proof.
  intros Hread Hdecode. unfold getNav, getNav_fuel.
  replace (String.length nodePath + 2) with (S (String.length nodePath + 1)) by lia.
  split.
  - rewrite (getNav_loop_found _ _ _ _ _ true _ Hread).
    unfold unmarshal_into.
    destruct (Unmarshal content) as [[nav|]|err]; [now destruct (Hdecode nav)| |];
      reflexivity.
  - intros fs0 err Hmissing.
    rewrite (getNav_loop_missing _ _ _ _ true _ Hmissing).
    unfold unmarshal_into. now rewrite Unmarshal_empty.
Qed.

(** [Dump] does not look at the active flags of its navigation. *)
Lemma Dump_clear (fs : gmap string FS.entry) (nav : navigation)
  (nodePath root : string) :
  Dump fs ((fun link => set_Active link false) <$> nav) nodePath root
  = Dump fs nav nodePath root.
Proof.
  unfold Dump. rewrite <- list_fmap_compose.
  now replace ((fun link => set_Active link false) ∘ (fun link => set_Active link false))
    with (fun link => set_Active link false) by reflexivity.
Qed.

(** C7: when [Dump] returns, the navigation file holds the serialization
    of the navigation with every active flag cleared, names and targets
    kept; what is written does not depend on the active flags that were
    passed in. *)
Theorem Dump_clears_active (fs fs' : gmap string FS.entry)
  (nav nav' : navigation) (nodePath root : string) :
  Dump fs nav nodePath root = Return (fs', nav') ->
  nav' = (fun link => set_Active link false) <$> nav /\
  Forall (fun link => Active link = false) nav' /\
  (exists p content,
     Str.tail1 nodePath = Some p /\
     Marshal nav' = Ok content /\
     fs' !! Join [root; p; "navigation.yaml"] = Some (FS.File content)) /\
  (forall nav2,
     (fun link => set_Active link false) <$> nav2
     = (fun link => set_Active link false) <$> nav ->
     Dump fs nav2 nodePath root = Return (fs', nav')).
Proof.
  intros Hdump.
  assert (forall nav2,
     (fun link => set_Active link false) <$> nav2
     = (fun link => set_Active link false) <$> nav ->
     Dump fs nav2 nodePath root = Return (fs', nav')) as Hindep.
  { intros nav2 Heq. now rewrite <- Dump_clear, Heq, Dump_clear. }
  unfold Dump in Hdump.
  destruct (Marshal _) as [content|err] eqn:Hmarshal; [|discriminate].
  unfold slice_from1 in Hdump.
  destruct (Str.tail1 nodePath) as [p|] eqn:Hp; [|discriminate]. simpl in Hdump.
  destruct (FS.WriteFile fs _ content) as [fs1|err] eqn:Hwrite; [|discriminate].
  inversion Hdump; subst. clear Hdump.
  repeat split.
  - apply Forall_fmap, Forall_forall. now intros link _.
  - exists p, content. repeat split; [assumption|].
    unfold FS.WriteFile in Hwrite.
    destruct (fs !! Join _) as [[|?]|]; try discriminate;
      destruct (FS.parent_dir fs _ _); inversion Hwrite;
      now rewrite lookup_insert_eq.
  - exact Hindep.
Qed.

End NavFacts.

(** ** Removing links and making targets absolute *)

Module LinkFacts.
Import Path PathFacts.
#[local] Arguments Join : simpl never.

Lemma Remove_loop_filter (target : string) (nav ret : navigation) :
  Remove_loop ret nav target
  = ret ++ List.filter (fun v => negb (Target v =? target)%string) nav.
Proof.
  revert ret. induction nav as [|v nav IH]; intros ret; simpl.
  - now rewrite app_nil_r.
  - destruct (negb (Target v =? target)%string); rewrite IH; [|reflexivity].
    now rewrite <- app_assoc.
Qed.

(** On a navigation with a link or more, [Remove] keeps the links to other
    targets, all of them and in their order. *)
Lemma Remove_nonempty (nav : navigation) (target : string) :
  nav <> [] ->
  Remove nav target
  = Return (List.filter (fun v => negb (Target v =? target)%string) nav).
Proof.
  intros Hne. unfold Remove, makeslice.
  destruct nav as [|v nav]; [congruence|].
  replace (Z.of_nat (length (v :: nav)) - 1 <? 0)%Z with false
    by (symmetry; apply Z.ltb_ge; simpl length; lia).
  change (0 <? 0)%Z with false. cbv iota.
  change (replicate (Z.to_nat 0) (mkNavLink "" "" false)) with (@nil navLink).
  change (Return [] ≫= (fun ret => Return (Remove_loop ret (v :: nav) target)))
    with (Return (Remove_loop [] (v :: nav) target)).
  now rewrite Remove_loop_filter.
Qed.

(** C5, at the empty navigation: the capacity asked of [make] is negative
    and [Remove] panics, where the claim has it do nothing. *)
Theorem Remove_empty_panics (target : string) :
  Remove [] target = Panic "runtime error: makeslice: cap out of range".
Proof. reflexivity. Qed.

(** Joining onto a rooted base gives a rooted path. *)
Lemma Clean_rooted (s : string) : Str.rooted s = true -> Str.rooted (Clean s) = true.
Proof.
  intros Hr. unfold Clean. rewrite Hr.
  destruct s; [discriminate | reflexivity].
Qed.

Lemma Join_rooted (base target : string) :
  Str.rooted base = true -> Str.rooted (Join [base; target]) = true.
Proof.
  intros Hr. destruct base as [|c base]; [discriminate|].
  change (Join [String c base; target])
    with (Clean (String c base +:+ "/" +:+ target)).
  apply Clean_rooted. exact Hr.
Qed.

(** A navigation with absolute targets is left as it is. *)
Lemma MakeAbsolute_absolute (nav : navigation) (base : string) :
  absolute nav -> MakeAbsolute nav base = Return nav.
Proof.
  induction 1 as [|link nav Hlink _ IH]; [reflexivity|].
  simpl. destruct (Target link) as [|c t] eqn:Ht; [discriminate|].
  simpl in Hlink. rewrite Hlink, IH. reflexivity.
Qed.

(** With a rooted base every target is absolute afterwards. *)
Lemma MakeAbsolute_result (base : string) :
  Str.rooted base = true ->
  forall nav nav', MakeAbsolute nav base = Return nav' -> absolute nav'.
Proof.
  intros Hbase. induction nav as [|link nav IH]; intros nav' Hret.
  - inversion Hret. constructor.
  - simpl in Hret. destruct (Target link) as [|c t] eqn:Ht; [discriminate|].
    destruct (MakeAbsolute nav base) as [rest|msg]; [|discriminate].
    simpl in Hret. inversion Hret; subst. constructor; [|now apply IH].
    destruct (Ascii.eqb c "/") eqn:Hc; simpl.
    + now rewrite Ht.
    + now apply Join_rooted.
Qed.

(** C6, as the code has it: with a base that begins with the separator,
    [MakeAbsolute] applied twice is [MakeAbsolute] applied once (a panic on
    an empty target included); and with any base a navigation whose targets
    are all absolute is returned unchanged. *)
Theorem MakeAbsolute_idempotent_rooted (nav : navigation) (base : string) :
  (Str.rooted base = true ->
   (MakeAbsolute nav base ≫= fun nav' => MakeAbsolute nav' base)
   = MakeAbsolute nav base) /\
  (absolute nav -> MakeAbsolute nav base = Return nav).
Proof.
  split; [|apply MakeAbsolute_absolute].
  intros Hbase.
  destruct (MakeAbsolute nav base) as [nav'|msg] eqn:Hret; [|reflexivity].
  apply (MakeAbsolute_result base Hbase) in Hret.
  exact (MakeAbsolute_absolute nav' base Hret).
Qed.

End LinkFacts.

(** ** Dispatch and response projection *)

Section DaemonFacts.

Context {Request Session ClientSession Site : Type}.
Variable Locale : ClientSession -> string.
Variable SiteName : Site -> string.
Variable EDIT_VIEW : Z.
Variable renderInMaster :
  string -> @masterTmplEnv ClientSession -> Site -> string -> string.
Variable editTitle : string -> string -> string.
Variable sessionSave : Session -> Request -> option string.

#[local] Abbreviation process :=
  (ProcessNodeResponse Locale EDIT_VIEW renderInMaster editTitle sessionSave).
#[local] Abbreviation request :=
  (RequestNode Locale SiteName EDIT_VIEW renderInMaster editTitle sessionSave).

Lemma set_Path_twice (node : client.Node) (p q : string) :
  client.set_Path (client.set_Path node p) q = client.set_Path node q.
Proof. reflexivity. Qed.

(** A response without body and without redirect is an application
    error. *)
Lemma ProcessNodeResponse_empty (res : client.Response) (r : Request)
  (node : client.Node) (action : string) (session : Session)
  (cSession : ClientSession) (site : Site) :
  client.Body res = "" -> client.Redirect res = "" ->
  process res r node action session cSession site
  = Return (HttpError "Application error." StatusInternalServerError).
Proof.
  intros Hbody Hredirect. unfold ProcessNodeResponse.
  now rewrite Hbody, Hredirect.
Qed.

(** C8: when the response carries a node, the path that this node carries
    has no influence on what the handler does; and where the body is
    rendered into the master template, the node given to the template is
    the node of the response with the path of the original node. *)
Theorem ProcessNodeResponse_keeps_path (res : client.Response) (r : Request)
  (node updated : client.Node) (action : string) (session : Session)
  (cSession : ClientSession) (site : Site) :
  client.Node_ res = Some updated ->
  (forall p,
     process (client.set_Node res (Some (client.set_Path updated p)))
       r node action session cSession site
     = process res r node action session cSession site) /\
  (client.Body res <> "" -> client.Redirect res = "" ->
   client.Raw res = false -> sessionSave session r = None ->
   let kept := client.set_Path updated (client.Path node) in
   let env :=
     if (action =? "edit")%string
     then mkEnv kept cSession
            (editTitle (Locale cSession) (client.Title updated)) EDIT_VIEW
     else mkEnv kept cSession "" 0 in
   client.Path (EnvNode env) = client.Path node /\
   process res r node action session cSession site
   = Return (HttpBody (renderInMaster (client.Body res) env site (Locale cSession)))).
Proof.
  intros Hnode. split.
  - intros p. unfold ProcessNodeResponse. rewrite Hnode. reflexivity.
  - intros Hbody Hredirect Hraw Hsave kept env. split.
    + unfold env. now destruct (action =? "edit")%string.
    + unfold ProcessNodeResponse.
      rewrite Hnode, Hredirect, Hraw, Hsave.
      destruct (client.Body res) as [|c body]; [congruence|].
      reflexivity.
Qed.

(** C1, as the code has it: when the reply channel of the ticket is closed
    with nothing sent, [RequestNode] receives the zero response and answers
    with the application error, as it does for a worker that sends a
    response without body and redirect; it writes no body and sends no
    redirect. *)
Theorem RequestNode_closed_is_application_error (h : nodeHandler)
  (worker : Ticket -> recv_event client.Response) (r : Request)
  (node : client.Node) (action : string) (session : Session)
  (cSession : ClientSession) (site : Site) (queue : list Ticket) :
  let ticket := mkTicket node r cSession action (SiteName site) in
  NodeQueues h !! client.Type_ node = Some queue ->
  worker ticket = Closed ->
  request h worker r node action session cSession site
  = Return (mkHandler (<[client.Type_ node := queue ++ [ticket]]> (NodeQueues h)),
            HttpError "Application error." StatusInternalServerError) /\
  (forall worker' res,
     worker' ticket = Received res ->
     client.Body res = "" -> client.Redirect res = "" ->
     request h worker' r node action session cSession site
     = request h worker r node action session cSession site).
Proof.
  intros ticket Hqueue Hclosed.
  assert (forall w res,
            recv client.zeroResponse (w ticket) = res ->
            client.Body res = "" -> client.Redirect res = "" ->
            request h w r node action session cSession site
            = Return (mkHandler (<[client.Type_ node := queue ++ [ticket]]> (NodeQueues h)),
                      HttpError "Application error." StatusInternalServerError))
    as Hempty.
  { intros w res Hrecv Hbody Hredirect.
    unfold RequestNode, QueueTicket. simpl. rewrite Hqueue. simpl.
    fold ticket. rewrite Hrecv.
    pose proof (ProcessNodeResponse_empty res r node action session cSession site
                  Hbody Hredirect) as Hp.
    rewrite Hp. reflexivity. }
  split.
  - apply (Hempty worker client.zeroResponse); [now rewrite Hclosed | reflexivity | reflexivity].
  - intros worker' res Hsent Hbody Hredirect.
    rewrite (Hempty worker' res); [|now rewrite Hsent|assumption|assumption].
    symmetry.
    apply (Hempty worker client.zeroResponse); [now rewrite Hclosed | reflexivity | reflexivity].
Qed.

End DaemonFacts.

(** ** The properties on the sample data *)

Module Runs.
Import Path PathFacts SidebarFacts LinkFacts.

(** The ancestors of [/foo/bar]. *)
Lemma ancestors_foo_bar (k : nat) :
  ancestor k "/foo/bar" = "/foo/bar" \/ ancestor k "/foo/bar" = "/foo"
  \/ ancestor k "/foo/bar" = "/".
Proof.
  induction k as [|k IH]; [now left|].
  change (ancestor (S k) "/foo/bar") with (Dir (ancestor k "/foo/bar")).
  destruct IH as [->|[->| ->]]; vm_compute; auto.
Qed.

Lemma no_sidebar_foo_bar (k : nat) :
  ~ has_sidebar Sample.data "/data" (ancestor k "/foo/bar").
Proof.
  intros [content Hread].
  destruct (ancestors_foo_bar k) as [Hk|[Hk|Hk]]; rewrite Hk in Hread;
    vm_compute in Hread; discriminate.
Qed.

(** C3 on the sample data: no node above [/foo/bar] has a sidebar, the
    walk ends at the root. *)
Lemma getSidebar_terminates_witness :
  exists k,
    k <= String.length "/foo/bar" + 1 /\
    Dir (ancestor k "/foo/bar") = ancestor k "/foo/bar" /\
    (forall j, j < k -> Dir (ancestor j "/foo/bar") <> ancestor j "/foo/bar") /\
    (forall fuel, fuel <= k ->
       getSidebar_loop fuel Sample.data "/foo/bar" "/data" = None) /\
    (forall fuel, k < fuel ->
       getSidebar_loop fuel Sample.data "/foo/bar" "/data" = Some "") /\
    getSidebar Sample.data "/foo/bar" "/data" = Some "".
Proof.
  apply (proj2 (getSidebar_terminates Sample.data "/foo/bar" "/data")).
  exact no_sidebar_foo_bar.
Defined.

(** C2 on the sample data. *)
Lemma writeNode_lookupNode_witness :
  (Str.rooted "/foo/baz" = true /\
   @writeNode Sample.yaml_node Sample.data (Sample.node "/foo/baz" "Baz") "/data"
   = Return (None, Sample.data_baz)) /\
  @lookupNode Sample.yaml_node Sample.data_baz "/data" "/foo/baz"
  = Return (Ok (Sample.node "/foo/baz" "Baz")).
Proof.
  assert (@writeNode Sample.yaml_node Sample.data (Sample.node "/foo/baz" "Baz") "/data"
          = Return (None, Sample.data_baz)) as Hwrite by (vm_compute; reflexivity).
  split; [split; [reflexivity | exact Hwrite]|].
  apply (proj1 (@writeNode_lookupNode Sample.yaml_node Sample.data Sample.data_baz
                  (Sample.node "/foo/baz" "Baz") "/data" "Baz"
                  eq_refl eq_refl eq_refl Hwrite)).
Defined.

(** C9 on the sample data: the directory of [/foo/baz] is created. *)
Lemma writeNode_creates_own_directory_witness :
  Str.tail1 "/foo/baz" = Some "foo/baz" /\
  @writeNode Sample.yaml_node Sample.data (Sample.node "/foo/baz" "Baz") "/data"
  = Return (None, Sample.data_baz).
Proof.
  split; [reflexivity|].
  pose proof (@writeNode_creates_own_directory Sample.yaml_node Sample.data
                (Sample.node "/foo/baz" "Baz") "/data" "foo/baz" eq_refl) as H.
  cbv zeta in H. destruct H as [_ H].
  destruct (H "Baz" eq_refl) as [Hcreate _].
  apply Hcreate; vm_compute; [reflexivity | reflexivity | discriminate].
Defined.

(** C9 refuted as stated: the parent [/data/a] of the directory of [/a/b]
    is missing; it is not created, and [writeNode] panics. *)
Lemma writeNode_missing_parent_panics :
  Sample.data !! "/data/a" = None /\
  @writeNode Sample.yaml_node Sample.data (Sample.node "/a/b" "B") "/data"
  = Panic "Can't create directory for new node: mkdir /data/a/b: no such file or directory".
Proof. split; vm_compute; reflexivity. Qed.

(** C4 on the sample data: the navigation of [/foo] has two links to [a]
    and no stored flag. *)
Lemma getNav_marks_first_only_witness :
  (FS.ReadFile Sample.data (Join ["/data"; "/foo"; "navigation.yaml"]) = Ok "a/b/a" /\
   @Unmarshal _ Sample.yaml_nav "a/b/a"
   = Ok (Some ([] ++ Sample.link "a" false
                  :: [Sample.link "b" false] ++ Sample.link "a" false :: [])) /\
   Forall (fun link => Active link = false)
     ([] ++ Sample.link "a" false
         :: [Sample.link "b" false] ++ Sample.link "a" false :: [])) /\
  @getNav Sample.yaml_nav Sample.data "/foo" "a" true "/data"
  = Some (Some [Sample.link "a" true; Sample.link "b" false; Sample.link "a" false],
          "/foo") /\
  (forall i link,
     [Sample.link "a" true; Sample.link "b" false; Sample.link "a" false] !! i
     = Some link ->
     (Active link = true <-> i = 0)) /\
  Active (Sample.link "a" false) = false /\
  Forall (fun link => Active link = false)
    [Sample.link "b" false; Sample.link "a" false].
Proof.
  assert (Forall (fun link => Active link = false)
            ([] ++ Sample.link "a" false
                :: [Sample.link "b" false] ++ Sample.link "a" false :: []))
    as Hinactive by (repeat constructor).
  split; [split; [|split]; [vm_compute; reflexivity | vm_compute; reflexivity
                            | exact Hinactive]|].
  apply (@getNav_marks_first_only Sample.yaml_nav Sample.data "/foo" "a" "/data"
           "a/b/a" true [] [Sample.link "b" false] []
           (Sample.link "a" false) (Sample.link "a" false));
    try (vm_compute; reflexivity); [exact Hinactive | constructor].
Defined.

(** Below [/bar] the search finds the navigation file of [/bar]; it does
    not parse, and as the file was not found at the first path, the
    navigation stays nil. *)
Example getNav_unparsable_above :
  @getNav Sample.yaml_nav Sample.data "/bar/x" "a" true "/data" = Some (None, "/bar").
Proof. reflexivity. Qed.

(** C10 on the sample data: the navigation file of [/bar] does not parse. *)
Lemma getNav_unparsable_is_empty_witness :
  (FS.ReadFile Sample.data (Join ["/data"; "/bar"; "navigation.yaml"]) = Ok "!" /\
   @Unmarshal _ Sample.yaml_nav "!"
   = Err (YamlError "YAML error: did not find expected node content")) /\
  @getNav Sample.yaml_nav Sample.data "/bar" "a" false "/data" = Some (Some [], "").
Proof.
  split; [split; vm_compute; reflexivity|].
  apply (proj1 (@getNav_unparsable_is_empty Sample.yaml_nav Sample.data "/bar" "a"
                  "/data" "!" false ltac:(vm_compute; reflexivity)
                  ltac:(intros nav; vm_compute; discriminate))).
Defined.

(** C7 on the sample data: a navigation with an active link is dumped. *)
Lemma Dump_clears_active_witness :
  @Dump Sample.yaml_nav Sample.data [Sample.link "a" true; Sample.link "b" false]
    "/foo" "/data"
  = Return (<["/data/foo/navigation.yaml" := FS.File "a/b"]> Sample.data,
            [Sample.link "a" false; Sample.link "b" false]) /\
  Forall (fun link => Active link = false)
    [Sample.link "a" false; Sample.link "b" false].
Proof.
  assert (@Dump Sample.yaml_nav Sample.data
            [Sample.link "a" true; Sample.link "b" false] "/foo" "/data"
          = Return (<["/data/foo/navigation.yaml" := FS.File "a/b"]> Sample.data,
                    [Sample.link "a" false; Sample.link "b" false])) as Hdump
    by (vm_compute; reflexivity).
  split; [exact Hdump|].
  apply (proj1 (proj2 (@Dump_clears_active Sample.yaml_nav _ _ _ _ _ _ Hdump))).
Defined.

(** C6 on a sample navigation, with the base [/foo]. *)
Lemma MakeAbsolute_idempotent_rooted_witness :
  Str.rooted "/foo" = true /\
  (MakeAbsolute [Sample.link "a" false; Sample.link "/b" false] "/foo"
     ≫= fun nav' => MakeAbsolute nav' "/foo")
  = MakeAbsolute [Sample.link "a" false; Sample.link "/b" false] "/foo".
Proof.
  split; [reflexivity|].
  apply (proj1 (MakeAbsolute_idempotent_rooted
                  [Sample.link "a" false; Sample.link "/b" false] "/foo")).
  reflexivity.
Defined.

(** C6 refuted as stated: with the relative base [a], a second application
    joins the base once more. *)
Lemma MakeAbsolute_not_idempotent :
  MakeAbsolute [Sample.link "b" false] "a" = Return [mkNavLink "b" "a/b" false] /\
  (MakeAbsolute [Sample.link "b" false] "a" ≫= fun nav' => MakeAbsolute nav' "a")
  = Return [mkNavLink "b" "a/a/b" false].
Proof. split; reflexivity. Qed.

(** C8 on a sample response: the worker answers for [/foo] with a node
    that carries the path [/elsewhere]. *)
Lemma ProcessNodeResponse_keeps_path_witness :
  client.Node_ (client.mkResponse "body" "" false (Some (Sample.node "/elsewhere" "New")))
  = Some (Sample.node "/elsewhere" "New") /\
  Sample.process
    (client.mkResponse "body" "" false (Some (Sample.node "/elsewhere" "New")))
    tt (Sample.node "/foo" "Foo") "view" tt tt tt
  = Return (HttpBody "[/foo] body").
Proof.
  split; [reflexivity|].
  pose proof (ProcessNodeResponse_keeps_path Sample.Locale Sample.EDIT_VIEW
                Sample.renderInMaster Sample.editTitle Sample.sessionSave
                (client.mkResponse "body" "" false (Some (Sample.node "/elsewhere" "New")))
                tt (Sample.node "/foo" "Foo") (Sample.node "/elsewhere" "New")
                "view" tt tt tt eq_refl) as [_ H].
  destruct H as [_ H]; [discriminate | reflexivity | reflexivity | reflexivity |].
  exact H.
Defined.

(** C1 on the sample handler: the worker closes the reply channel. *)
Lemma RequestNode_closed_is_application_error_witness :
  (NodeQueues Sample.handler !! "document" = Some [] /\
   (fun _ : @Ticket unit unit => @Closed client.Response)
     (mkTicket (Sample.node "/foo" "Foo") tt tt "view" "FooSite") = Closed) /\
  exists h,
    Sample.request Sample.handler (fun _ => Closed) tt (Sample.node "/foo" "Foo")
      "view" tt tt tt
    = Return (h, HttpError "Application error." 500).
Proof.
  split; [split; vm_compute; reflexivity|].
  eexists.
  apply (proj1 (RequestNode_closed_is_application_error Sample.Locale Sample.SiteName
                  Sample.EDIT_VIEW Sample.renderInMaster Sample.editTitle
                  Sample.sessionSave Sample.handler (fun _ => Closed) tt
                  (Sample.node "/foo" "Foo") "view" tt tt tt []
                  ltac:(vm_compute; reflexivity) eq_refl)).
Defined.

(** C1 refuted as stated: a closed reply channel and a worker that sends
    the empty response have the same outcome; there is no outcome of its
    own for the lost worker. *)
Lemma RequestNode_closed_not_distinct :
  Sample.request Sample.handler (fun _ => Closed) tt (Sample.node "/foo" "Foo")
    "view" tt tt tt
  = Sample.request Sample.handler (fun _ => Received client.zeroResponse) tt
      (Sample.node "/foo" "Foo") "view" tt tt tt.
Proof. reflexivity. Qed.

End Runs.

(** ** Splitting the action off a request path *)

Module ActionFacts.
Import Path PathFacts.

Lemma substring_all (s : string) : String.substring 0 (String.length s) s = s.
Proof. induction s as [|c s IH]; simpl; [reflexivity | now rewrite IH]. Qed.

Lemma substring_prefix (s t : string) :
  String.substring 0 (String.length s) (s +:+ t) = s.
Proof.
  induction s as [|c s IH]; [now destruct t|].
  rewrite StrFacts.append_cons. simpl. now rewrite IH.
Qed.

Lemma split_sep_length (s : string) :
  has_sep s = true -> 2 <= length (split s).
Proof.
  induction s as [|c s IH]; simpl; [discriminate|].
  pose proof (split_nonempty s) as Hne.
  destruct (is_sep c); simpl.
  - intros _. destruct (split s); [congruence | simpl; lia].
  - intros Hs. specialize (IH Hs). destruct (split s); simpl in *; lia.
Qed.

(** The element after the last separator has no separator, and the path is
    its directory prefix followed by that element. *)
Lemma split_last (s : string) :
  s = dir_prefix s +:+ List.last (split s) "" /\
  has_sep (List.last (split s) "") = false.
Proof.
  induction s as [|c s [IHs IHl]]; [split; reflexivity|].
  simpl split. simpl dir_prefix. simpl has_sep.
  pose proof (split_nonempty s) as Hne.
  destruct (is_sep c) eqn:Hc; simpl orb.
  - destruct (split s) as [|e es] eqn:Hs; [congruence|].
    change (List.last ("" :: e :: es) "") with (List.last (e :: es) "").
    split; [|exact IHl]. rewrite StrFacts.append_cons. now f_equal.
  - destruct (has_sep s) eqn:Hsep.
    + pose proof (split_sep_length s Hsep) as Hlen.
      destruct (split s) as [|e [|e' es]] eqn:Hs; simpl in Hlen; try lia.
      change (List.last (String c e :: e' :: es) "")
        with (List.last (e :: e' :: es) "").
      split; [|exact IHl]. rewrite StrFacts.append_cons. now f_equal.
    + rewrite (split_no_sep s Hsep). simpl. rewrite Hc, Hsep. split; reflexivity.
Qed.

Lemma action_of_marked (a : string) : a <> "" -> action_of ("@@" +:+ a) = a.
Proof.
  intros Ha. destruct a as [|c a]; [congruence|].
  unfold action_of. simpl. now rewrite substring_all.
Qed.

Lemma action_of_inv (last : string) :
  action_of last <> "" -> last = "@@" +:+ action_of last.
Proof.
  unfold action_of.
  destruct last as [|c1 [|c2 [|c3 rest]]]; simpl; try congruence.
  destruct (Ascii.eqb_spec c1 "@") as [->|_]; [|congruence].
  destruct (Ascii.eqb_spec c2 "@") as [->|_]; [|congruence].
  intros _. now rewrite substring_all.
Qed.

Lemma splitAction_unfold (path : string) :
  splitAction path =
  let action := action_of (List.last (split path) "") in
  if (0 <? String.length action)%nat then
    let n := (Z.of_nat (String.length path)
              - (Z.of_nat (String.length action) + 3))%Z in
    if (n <? 0)%Z then Panic "runtime error: slice bounds out of range"
    else
      let nodePath := String.substring 0 (Z.to_nat n) path in
      if (String.length nodePath =? 0)%nat then Return ("/", action)
      else Return (nodePath, action)
  else Return (path, action).
Proof. reflexivity. Qed.

Lemma length_pos (s : string) : s <> "" -> (0 <? String.length s)%nat = true.
Proof. destruct s; [congruence | reflexivity]. Qed.

Lemma last_marked (nodePath action : string) :
  has_sep action = false ->
  List.last (split (nodePath +:+ "/@@" +:+ action)) "" = "@@" +:+ action.
Proof.
  intros Hsep.
  change (nodePath +:+ "/@@" +:+ action)
    with (nodePath +:+ "/" +:+ ("@@" +:+ action)).
  rewrite split_app_sep, (split_no_sep ("@@" +:+ action)) by exact Hsep.
  apply last_last.
Qed.

(** X1: a node path followed by [/@@] and an action (not empty, without
    separator) is split into the node path and the action; the empty node
    path comes back as the root. *)
Theorem splitAction_join (nodePath action : string) :
  action <> "" -> has_sep action = false ->
  splitAction (nodePath +:+ "/@@" +:+ action)
  = Return (if (nodePath =? "")%string then "/" else nodePath, action).
Proof.
  intros Hne Hsep. rewrite splitAction_unfold.
  rewrite last_marked by exact Hsep. rewrite action_of_marked by exact Hne.
  cbv zeta. rewrite (length_pos action Hne).
  rewrite !StrFacts.length_append.
  replace (Z.of_nat (String.length nodePath + (String.length "/@@" + String.length action))
           - (Z.of_nat (String.length action) + 3))%Z
    with (Z.of_nat (String.length nodePath)) by (simpl String.length; lia).
  replace (Z.of_nat (String.length nodePath) <? 0)%Z with false
    by (symmetry; apply Z.ltb_ge; lia).
  rewrite Nat2Z.id, substring_prefix.
  destruct nodePath; reflexivity.
Qed.

(** X2: whatever [splitAction] returns, an empty action comes with the
    path unchanged, and an action that is not empty has no separator and
    stood behind [/@@] at the end of the path, after the node path (or
    right at the start, for the root). *)
Theorem splitAction_inv (path nodePath action : string) :
  splitAction path = Return (nodePath, action) ->
  (action = "" /\ nodePath = path) \/
  (action <> "" /\ has_sep action = false /\ nodePath <> "" /\
   (path = nodePath +:+ "/@@" +:+ action \/
    (nodePath = "/" /\ path = "/@@" +:+ action))).
Proof.
  rewrite splitAction_unfold. cbv zeta.
  destruct (split_last path) as [Hpath Hlast].
  set (last := List.last (split path) "") in *.
  destruct (action_of last) as [|c a] eqn:Haction.
  { simpl. intros Hret. injection Hret as <- <-. now left. }
  assert (last = "@@" +:+ String c a) as Hmarked.
  { rewrite <- Haction. apply action_of_inv. rewrite Haction. discriminate. }
  rewrite Hmarked in Hpath, Hlast.
  change (0 <? String.length (String c a))%nat with true. cbv iota.
  destruct (has_sep path) eqn:Hsep.
  - destruct (dir_prefix_sep path Hsep) as (t & Ht & _). rewrite Ht in Hpath.
    rewrite StrFacts.append_assoc in Hpath.
    change ("/" +:+ "@@" +:+ String c a) with ("/@@" +:+ String c a) in Hpath.
    clearbody last. clear Ht Hsep. subst path. rewrite !StrFacts.length_append.
    replace (Z.of_nat (String.length t + (String.length "/@@" + String.length (String c a)))
             - (Z.of_nat (String.length (String c a)) + 3))%Z
      with (Z.of_nat (String.length t)) by (simpl String.length; lia).
    replace (Z.of_nat (String.length t) <? 0)%Z with false
      by (symmetry; apply Z.ltb_ge; lia).
    rewrite Nat2Z.id, substring_prefix.
    intros Hret. right.
    destruct t as [|c' t]; simpl in Hret; injection Hret as <- <-.
    + repeat split; try discriminate; [exact Hlast|]. right. split; reflexivity.
    + repeat split; try discriminate; [exact Hlast|]. left. reflexivity.
  - rewrite (dir_prefix_no_sep path Hsep) in Hpath.
    clearbody last. clear Hsep. subst path.
    replace (Z.of_nat (String.length ("" +:+ "@@" +:+ String c a))
             - (Z.of_nat (String.length (String c a)) + 3) <? 0)%Z with true
      by (symmetry; apply Z.ltb_lt; simpl String.length; lia).
    discriminate.
Qed.

(** X3: a path that is an action and nothing else, without the separator
    in front, makes [splitAction] panic: the node path would end before
    the start of the path. *)
Theorem splitAction_bare_action_panics (action : string) :
  action <> "" -> has_sep action = false ->
  splitAction ("@@" +:+ action) = Panic "runtime error: slice bounds out of range".
Proof.
  intros Hne Hsep. rewrite splitAction_unfold.
  rewrite (split_no_sep ("@@" +:+ action)) by exact Hsep.
  change (List.last ["@@" +:+ action] "") with ("@@" +:+ action).
  rewrite action_of_marked by exact Hne. cbv zeta.
  rewrite (length_pos action Hne).
  now replace (Z.of_nat (String.length ("@@" +:+ action))
               - (Z.of_nat (String.length action) + 3) <? 0)%Z with true
    by (symmetry; apply Z.ltb_lt; rewrite StrFacts.length_append;
        simpl String.length; lia).
Qed.

Lemma splitAction_join_witness :
  ("edit" <> "" /\ has_sep "edit" = false) /\
  splitAction ("/foo/bar" +:+ "/@@" +:+ "edit") = Return ("/foo/bar", "edit").
Proof.
  split; [split; [discriminate | reflexivity]|].
  apply (splitAction_join "/foo/bar" "edit"); [discriminate | reflexivity].
Defined.

Lemma splitAction_inv_witness :
  splitAction "/@@login" = Return ("/", "login") /\
  ((("login" = "" /\ "/" = "/@@login") \/
    ("login" <> "" /\ has_sep "login" = false /\ "/" <> "" /\
     ("/@@login" = "/" +:+ "/@@" +:+ "login" \/
      ("/" = "/" /\ "/@@login" = "/@@" +:+ "login"))))).
Proof.
  split; [reflexivity|].
  apply (splitAction_inv "/@@login" "/" "login"). reflexivity.
Defined.

Lemma splitAction_bare_action_panics_witness :
  ("edit" <> "" /\ has_sep "edit" = false) /\
  splitAction "@@edit" = Panic "runtime error: slice bounds out of range".
Proof.
  split; [split; [discriminate | reflexivity]|].
  apply (splitAction_bare_action_panics "edit"); [discriminate | reflexivity].
Defined.

End ActionFacts.

(** ** Adding and removing links, absolute targets *)

Module LinkMore.
Import Path PathFacts LinkFacts.
#[local] Arguments Join : simpl never.

Lemma filter_others_all (target : string) (nav : navigation) :
  Forall (fun v => Target v <> target) nav ->
  List.filter (fun v => negb (Target v =? target)%string) nav = nav.
Proof.
  induction 1 as [|v nav Hv _ IH]; simpl; [reflexivity|].
  apply String.eqb_neq in Hv as ->. simpl. now rewrite IH.
Qed.

(** X4: a link that was added is removed again by [Remove] with its
    target, without a panic, together with every older link to the same
    target; a navigation without such a link is back as it was. *)
Theorem Add_then_Remove (nav : navigation) (name target : string) :
  Remove (Add nav name target) target
  = Return (List.filter (fun v => negb (Target v =? target)%string) nav) /\
  (Forall (fun v => Target v <> target) nav ->
   Remove (Add nav name target) target = Return nav).
Proof.
  assert (Remove (Add nav name target) target
          = Return (List.filter (fun v => negb (Target v =? target)%string) nav))
    as Hremove.
  { unfold Add. rewrite Remove_nonempty.
    - rewrite List.filter_app. simpl. rewrite String.eqb_refl. simpl.
      now rewrite app_nil_r.
    - intros Happ. now apply app_eq_nil in Happ as [_ ?]. }
  split; [exact Hremove|].
  intros Hnone. now rewrite Hremove, filter_others_all.
Qed.


(** X6: [MakeAbsolute] panics exactly when some link of the navigation,
    wherever it stands, has an empty target; otherwise it returns the
    navigation with every target that does not begin with the separator
    joined to the base, and every other link, and all names and active
    flags, as they were. *)
Theorem MakeAbsolute_spec (nav : navigation) (base : string) :
  MakeAbsolute nav base
  = if existsb (fun link => (Target link =? "")%string) nav
    then Panic "runtime error: index out of range"
    else Return (absolute_link base <$> nav).
Proof.
  induction nav as [|link nav IH]; [reflexivity|].
  simpl. rewrite IH. unfold absolute_link at 2.
  destruct (Target link) as [|c t] eqn:Ht; [reflexivity|].
  simpl. destruct (existsb _ nav); [reflexivity|].
  simpl. now destruct (Ascii.eqb c "/").
Qed.


End LinkMore.

(** ** The upward searches *)

Section SearchFacts.

Context `{!Yaml navigation}.

Import Path PathFacts SidebarFacts.
#[local] Arguments Join : simpl never.
#[local] Arguments Dir : simpl never.

(** As long as the ancestors are not their own parents the walk has not
    used up the height of the path. *)
Lemma ancestors_below_height (k : nat) :
  forall path,
    (forall j, j < k -> Dir (ancestor j path) <> ancestor j path) ->
    k <= height path.
Proof.
  induction k as [|k IH]; intros path Hbefore; [lia|].
  pose proof (Hbefore 0 ltac:(lia)) as Hne. simpl in Hne.
  pose proof (Dir_height path Hne) as Hlt.
  assert (k <= height (Dir path)); [|lia].
  apply IH. intros j Hj. rewrite ancestor_Dir. apply Hbefore. lia.
Qed.

Lemma getSidebar_loop_nearest (fs : gmap string FS.entry)
  (root content : string) :
  forall k path fuel,
    (forall j, j < k -> ~ has_sidebar fs root (ancestor j path)) ->
    (forall j, j < k -> Dir (ancestor j path) <> ancestor j path) ->
    FS.ReadFile fs (Join [root; ancestor k path; "sidebar.html"]) = Ok content ->
    k < fuel ->
    getSidebar_loop fuel fs path root = Some content.
Proof.
  induction k as [|k IH]; intros path fuel Hno Hbefore Hread Hfuel;
    (destruct fuel as [|fuel]; [lia|]); rewrite getSidebar_loop_S.
  - simpl in Hread. now rewrite Hread.
  - destruct (ReadFile_absent fs root path (Hno 0 ltac:(lia))) as [err ->].
    destruct (String.eqb_spec path (Dir path)) as [Heq|_].
    { exfalso. apply (Hbefore 0 ltac:(lia)). simpl. congruence. }
    apply IH; [| |now rewrite ancestor_Dir|lia].
    + intros j Hj. rewrite ancestor_Dir. apply Hno. lia.
    + intros j Hj. rewrite ancestor_Dir. apply Hbefore. lia.
Qed.

(** X7: the sidebar of a node is the sidebar file of its nearest ancestor
    that has one, the node itself first: with no sidebar file at the node
    and its first [k - 1] ancestors, none of them the root, and a sidebar
    file at the [k]-th, [getSidebar] returns the content of that file,
    whatever the ancestors further up have. *)
Theorem getSidebar_nearest (fs : gmap string FS.entry)
  (path root content : string) (k : nat) :
  (forall j, j < k -> ~ has_sidebar fs root (ancestor j path)) ->
  (forall j, j < k -> Dir (ancestor j path) <> ancestor j path) ->
  FS.ReadFile fs (Join [root; ancestor k path; "sidebar.html"]) = Ok content ->
  getSidebar fs path root = Some content.
Proof.
  intros Hno Hbefore Hread. unfold getSidebar.
  apply (getSidebar_loop_nearest fs root content k); try assumption.
  pose proof (ancestors_below_height k path Hbefore).
  pose proof (height_le path). lia.
Qed.

Lemma ReadFile_nav_absent (fs : gmap string FS.entry) (root path : string) :
  ~ has_nav fs root path ->
  exists err, FS.ReadFile fs (Join [root; path; "navigation.yaml"]) = Err err.
Proof.
  intros Hno. unfold has_nav in Hno.
  destruct (FS.ReadFile fs _) as [content|err] eqn:Hread; [|eauto].
  exfalso. eauto.
Qed.

Lemma getNav_loop_S (fuel : nat) (fs : gmap string FS.entry)
  (nodePath root : string) (hasNav recursive : bool) :
  getNav_loop (S fuel) fs nodePath hasNav recursive root =
  match FS.ReadFile fs (Join [root; nodePath; "navigation.yaml"]) with
  | Err _ =>
      if negb recursive || (Dir nodePath =? Dir (Dir nodePath))%string
      then Some ("", false, "")
      else getNav_loop fuel fs (Dir nodePath) false recursive root
  | Ok content => Some (content, hasNav, if recursive then nodePath else "")
  end.
Proof. reflexivity. Qed.

(** The recursive search from a node without navigation of its own, up to
    the [k]-th ancestor, [k] at least one. *)
Lemma getNav_loop_nearest (fs : gmap string FS.entry) (root content : string) :
  forall k path fuel hasNav,
    (forall j, j <= k -> ~ has_nav fs root (ancestor j path)) ->
    (forall j, j <= k -> Dir (ancestor (S j) path) <> ancestor (S j) path) ->
    FS.ReadFile fs (Join [root; ancestor (S k) path; "navigation.yaml"]) = Ok content ->
    S k < fuel ->
    getNav_loop fuel fs path hasNav true root
    = Some (content, false, ancestor (S k) path).
Proof.
  induction k as [|k IH]; intros path fuel hasNav Hno Hbefore Hread Hfuel;
    (destruct fuel as [|fuel]; [lia|]); rewrite getNav_loop_S;
    destruct (ReadFile_nav_absent fs root path (Hno 0 ltac:(lia))) as [err ->];
    simpl negb; simpl orb.
  - destruct (String.eqb_spec (Dir path) (Dir (Dir path))) as [Heq|_].
    { exfalso. apply (Hbefore 0 ltac:(lia)). simpl. congruence. }
    destruct fuel as [|fuel]; [lia|]. rewrite getNav_loop_S.
    simpl in Hread. now rewrite Hread.
  - destruct (String.eqb_spec (Dir path) (Dir (Dir path))) as [Heq|_].
    { exfalso. apply (Hbefore 0 ltac:(lia)). simpl. congruence. }
    rewrite (IH (Dir path) fuel false); [now rewrite ancestor_Dir| | | |lia].
    + intros j Hj. rewrite ancestor_Dir. apply Hno. lia.
    + intros j Hj. rewrite ancestor_Dir. apply Hbefore. lia.
    + now rewrite ancestor_Dir.
Qed.

(** X8: the recursive search of [getNav] from a node without navigation
    file finds the navigation file of the nearest ancestor that has one,
    when no node up to there is the root, and reports that ancestor as the
    root of the navigation. As the file was not found at the first node,
    a content that decodes to nothing gives the nil navigation here, and
    not the empty one. *)
Theorem getNav_recursive_nearest (fs : gmap string FS.entry)
  (path active root content : string) (k : nat) :
  (forall j, j <= k -> ~ has_nav fs root (ancestor j path)) ->
  (forall j, j <= k -> Dir (ancestor (S j) path) <> ancestor (S j) path) ->
  FS.ReadFile fs (Join [root; ancestor (S k) path; "navigation.yaml"]) = Ok content ->
  getNav fs path active true root
  = Some ((fun l => mark_active l active) <$> unmarshal_into content None,
          ancestor (S k) path).
Proof.
  intros Hno Hbefore Hread. unfold getNav, getNav_fuel.
  rewrite (getNav_loop_nearest fs root content k); try assumption.
  - now rewrite andb_false_r.
  - assert (S (S k) <= height path) as Hk; [|pose proof (height_le path); lia].
    destruct (String.eqb_spec (Dir path) path) as [Heq|Hne].
    { exfalso. apply (Hbefore 0 ltac:(lia)). simpl. congruence. }
    pose proof (Dir_height path Hne).
    assert (S k <= height (Dir path)); [|lia].
    apply ancestors_below_height. intros j Hj.
    rewrite ancestor_Dir. apply Hbefore. lia.
Qed.

(** X9: the root is never searched on behalf of a node below it: when the
    node has no navigation file and its parent is the root, [getNav]
    returns the nil navigation and no navigation root, with and without
    recursion and whatever navigation the root has. *)
Theorem getNav_stops_below_root (fs : gmap string FS.entry)
  (path active root : string) (recursive : bool) :
  ~ has_nav fs root path ->
  Dir (Dir path) = Dir path ->
  getNav fs path active recursive root = Some (None, "").
Proof.
  intros Hno Hroot. unfold getNav, getNav_fuel.
  replace (String.length path + 2) with (S (String.length path + 1)) by lia.
  rewrite getNav_loop_S.
  destruct (ReadFile_nav_absent fs root path Hno) as [err ->].
  rewrite Hroot, String.eqb_refl, orb_true_r.
  unfold unmarshal_into. now rewrite Unmarshal_empty.
Qed.

End SearchFacts.

(** ** More on joined paths *)

Module PathMore.
Import Path PathFacts.

Lemma clean_step_empty (r : bool) (out : list string) : clean_step r out "" = out.
Proof. reflexivity. Qed.

Lemma join3 (a b c : string) : join [a; b; c] = a +:+ "/" +:+ (b +:+ "/" +:+ c).
Proof. reflexivity. Qed.

Lemma join2 (a b : string) : join [a; b] = a +:+ "/" +:+ b.
Proof. reflexivity. Qed.

Lemma Join_cons (e : string) (rest : list string) :
  e <> "" -> Join (e :: rest) = Clean (join (e :: rest)).
Proof. intros He. simpl. now apply String.eqb_neq in He as ->. Qed.

(** A separator in front of the second element makes no difference. *)
Lemma Join3_skip_sep (root p name : string) :
  root <> "" -> Join [root; String "/" p; name] = Join [root; p; name].
Proof.
  intros Hroot. rewrite !Join_cons by exact Hroot. rewrite !join3.
  destruct root as [|c root]; [congruence|].
  unfold Clean. rewrite !StrFacts.append_cons. cbn [String.eqb Str.rooted].
  rewrite <- !StrFacts.append_cons.
  rewrite !split_app_sep.
  change (split (String "/" p +:+ "/" +:+ name))
    with ("" :: split (p +:+ "/" +:+ name)).
  unfold clean_elems. rewrite !fold_left_app. reflexivity.
Qed.

Lemma join_snoc (out : list string) (name : string) :
  out <> [] -> join (out ++ [name]) = join out +:+ "/" +:+ name.
Proof.
  induction out as [|e out IH]; [congruence|]. intros _.
  destruct out as [|e' out]; [reflexivity|].
  change (join ((e :: e' :: out) ++ [name]))
    with (e +:+ "/" +:+ join ((e' :: out) ++ [name])).
  rewrite IH by congruence.
  change (join (e :: e' :: out)) with (e +:+ "/" +:+ join (e' :: out)).
  now rewrite !StrFacts.append_assoc.
Qed.

Lemma prefix_append (s t : string) : String.prefix s (s +:+ t) = true.
Proof.
  induction s as [|c s IH]; [now destruct t|].
  rewrite StrFacts.append_cons. simpl.
  destruct (Ascii.ascii_dec c c); [exact IH | congruence].
Qed.

Lemma clean_elems_snoc_real (r : bool) (elems : list string) (name : string) :
  is_real name = true ->
  clean_elems r [] (elems ++ [name]) = name :: clean_elems r [] elems.
Proof.
  intros Hreal. unfold clean_elems. rewrite fold_left_app.
  cbn [fold_left]. now apply clean_step_real.
Qed.

(** The cleaned path of an entry in a directory lies below the cleaned
    path of the directory. *)
Lemma Clean_child_below (dir name : string) :
  Str.rooted dir = true -> is_real name = true ->
  FS.below (Clean dir) (Clean (dir +:+ "/" +:+ name)) = true.
Proof.
  intros Hr Hreal.
  assert (has_sep name = false) as Hsep.
  { unfold is_real in Hreal. repeat (apply andb_true_iff in Hreal as [Hreal ?]).
    now apply negb_true_iff. }
  destruct dir as [|c dir]; [discriminate|].
  unfold Clean. rewrite !StrFacts.append_cons.
  cbn [String.eqb Str.rooted]. rewrite <- !StrFacts.append_cons.
  simpl in Hr. rewrite Hr.
  rewrite split_app_sep, (split_no_sep name Hsep).
  rewrite clean_elems_snoc_real by exact Hreal. simpl rev.
  set (out := rev _). unfold FS.below. apply orb_true_iff. right.
  destruct out as [|e out].
  - apply (prefix_append "/" name).
  - rewrite join_snoc by congruence.
    destruct (String.eqb_spec ("/" +:+ join (e :: out)) "/") as [Heq|_].
    + apply (prefix_append "/").
    + rewrite <- !StrFacts.append_assoc. apply prefix_append.
Qed.

Lemma Join_child_below (root p name : string) :
  Str.rooted root = true -> is_real name = true ->
  FS.below (Join [root; p]) (Join [root; p; name]) = true.
Proof.
  intros Hr Hreal.
  assert (root <> "") as Hroot by (intros ->; discriminate).
  rewrite !Join_cons by exact Hroot. rewrite join3, join2.
  replace (root +:+ "/" +:+ (p +:+ "/" +:+ name))
    with ((root +:+ "/" +:+ p) +:+ "/" +:+ name)
    by (now rewrite StrFacts.append_assoc).
  apply Clean_child_below; [|exact Hreal].
  destruct root; [discriminate | exact Hr].
Qed.

(** The parent of a rooted path is rooted. *)
Lemma Dir_rooted (path : string) : Str.rooted path = true -> Str.rooted (Dir path) = true.
Proof.
  intros Hr. unfold Dir. apply LinkFacts.Clean_rooted.
  destruct path as [|c path]; [discriminate|].
  simpl in *. unfold is_sep. now rewrite Hr.
Qed.

Lemma rooted_cons (s : string) :
  Str.rooted s = true -> exists p, s = String "/" p.
Proof.
  destruct s as [|c s]; simpl; [discriminate|].
  intros Hc. apply Ascii.eqb_eq in Hc as ->. eauto.
Qed.

End PathMore.

(** ** What a write leaves alone, and reading back a navigation *)

Section WriteFacts.

Context `{!Yaml client.Node} `{!Yaml navigation}.

Import Path PathFacts PathMore.
#[local] Arguments Join : simpl never.
#[local] Arguments Dir : simpl never.

Lemma Mkdir_Ok (fs fs' : gmap string FS.entry) (name : string) :
  FS.Mkdir fs name = Ok fs' ->
  fs !! name = None /\ fs' = <[name := FS.Directory]> fs.
Proof.
  unfold FS.Mkdir. destruct (fs !! name); [discriminate|].
  destruct (FS.parent_dir fs "mkdir" name); [discriminate|].
  intros Hok. now inversion Hok.
Qed.

Lemma WriteFile_parent (fs fs' : gmap string FS.entry) (name data : string) :
  FS.WriteFile fs name data = Ok fs' -> fs !! Dir name = Some FS.Directory.
Proof.
  unfold FS.WriteFile, FS.parent_dir. intros Hw.
  destruct (fs !! name) as [[|?]|]; try discriminate;
    destruct (fs !! Dir name) as [[|?]|]; now try discriminate.
Qed.

Lemma WriteFile_no_parent (fs : gmap string FS.entry) (name data : string) :
  fs !! Dir name <> Some FS.Directory ->
  exists err, FS.WriteFile fs name data = Err err.
Proof.
  unfold FS.WriteFile, FS.parent_dir. intros Hno.
  destruct (fs !! name) as [[|?]|]; eauto;
    destruct (fs !! Dir name) as [[|?]|]; eauto; congruence.
Qed.

(** X10: whether it returns an error or not, [writeNode] changes nothing
    in the data directory but the record file of the node and the
    directory that holds it, and it removes no entry. *)
Theorem writeNode_frame (fs fs' : gmap string FS.entry) (node : client.Node)
  (root p : string) (err : option error) :
  Str.tail1 (client.Path node) = Some p ->
  writeNode fs node root = Return (err, fs') ->
  (forall name,
     name <> Join [root; p; "node.yaml"] ->
     name <> Dir (Join [root; p; "node.yaml"]) ->
     fs' !! name = fs !! name) /\
  (forall name, is_Some (fs !! name) -> is_Some (fs' !! name)).
Proof.
  intros Hp Hwrite. unfold writeNode in Hwrite.
  destruct (Marshal _) as [content|merr].
  2:{ inversion Hwrite; subst. split; auto. }
  rewrite (slice_from1_Some _ _ Hp) in Hwrite. simpl in Hwrite.
  set (node_path := Join [root; p; "node.yaml"]) in *.
  assert (exists fs1,
            (fs1 = fs \/ (fs !! Dir node_path = None
                          /\ fs1 = <[Dir node_path := FS.Directory]> fs)) /\
            (fs' = fs1 \/ fs' = <[node_path := FS.File content]> fs1))
    as (fs1 & Hfs1 & Hfs').
  { destruct (FS.Mkdir fs (Dir node_path)) as [fs1|merr] eqn:Hmk.
    - apply Mkdir_Ok in Hmk as [Hnone ->]. simpl in Hwrite.
      eexists. split; [right; split; [exact Hnone | reflexivity]|].
      destruct (FS.WriteFile _ node_path content) as [fs2|werr] eqn:Hw;
        inversion Hwrite; subst; [right | left; reflexivity].
      now apply WriteFile_Ok in Hw.
    - destruct (FS.IsExist merr); simpl in Hwrite; [|discriminate].
      exists fs. split; [now left|].
      destruct (FS.WriteFile fs node_path content) as [fs2|werr] eqn:Hw;
        inversion Hwrite; subst; [right | left; reflexivity].
      now apply WriteFile_Ok in Hw. }
  split.
  - intros name Hfile Hdir.
    destruct Hfs' as [->| ->]; [|rewrite lookup_insert_ne by congruence];
      (destruct Hfs1 as [->|[_ ->]]; [reflexivity|];
       now rewrite lookup_insert_ne by congruence).
  - intros name Hsome.
    assert (is_Some (fs1 !! name)) as Hsome1.
    { destruct Hfs1 as [->|[_ ->]]; [exact Hsome|].
      destruct (decide (Dir node_path = name)) as [<-|Hne].
      - rewrite lookup_insert_eq. eauto.
      - now rewrite lookup_insert_ne. }
    destruct Hfs' as [->| ->]; [exact Hsome1|].
    destruct (decide (node_path = name)) as [<-|Hne].
    + rewrite lookup_insert_eq. eauto.
    + now rewrite lookup_insert_ne.
Qed.

(** X11: [Dump] makes no directory: it returns only when the directory of
    the navigation file is there, and then it has changed nothing but that
    file; without the directory it panics. *)
Theorem Dump_needs_directory (fs : gmap string FS.entry) (nav : navigation)
  (nodePath root p : string) :
  Str.tail1 nodePath = Some p ->
  let file := Join [root; p; "navigation.yaml"] in
  (forall fs' nav',
     Dump fs nav nodePath root = Return (fs', nav') ->
     fs !! Dir file = Some FS.Directory /\
     (forall name, name <> file -> fs' !! name = fs !! name)) /\
  (fs !! Dir file <> Some FS.Directory ->
   exists msg, Dump fs nav nodePath root = Panic msg).
Proof.
  intros Hp file. unfold Dump.
  destruct (Marshal _) as [content|merr].
  2:{ split; [discriminate | eauto]. }
  rewrite (slice_from1_Some _ _ Hp). simpl. fold file. split.
  - intros fs' nav' Hret.
    destruct (FS.WriteFile fs file content) as [fs1|werr] eqn:Hw; [|discriminate].
    inversion Hret; subst. split; [now apply WriteFile_parent in Hw|].
    intros name Hne. apply WriteFile_Ok in Hw as ->.
    now rewrite lookup_insert_ne by congruence.
  - intros Hno. destruct (WriteFile_no_parent fs file content Hno) as [werr ->].
    eauto.
Qed.

(** X12: a navigation that [Dump] has written for a node is read back by
    [getNav] for that node: with a data directory that is not the empty
    path, a node path that begins with the separator and a codec that
    gives back what it serialized, [getNav] returns the navigation with
    its flags cleared and the first link to the active target marked. *)
Theorem Dump_then_getNav (fs fs' : gmap string FS.entry) (nav nav' : navigation)
  (nodePath active root : string) (recursive : bool) :
  root <> "" -> Str.rooted nodePath = true ->
  (forall content, Marshal nav' = Ok content -> Unmarshal content = Ok (Some nav')) ->
  Dump fs nav nodePath root = Return (fs', nav') ->
  getNav fs' nodePath active recursive root
  = Some (Some (mark_active nav' active), if recursive then nodePath else "").
Proof.
  intros Hroot Hrooted Hcodec Hdump.
  destruct (rooted_cons nodePath Hrooted) as [p ->].
  unfold Dump in Hdump.
  destruct (Marshal ((fun link => set_Active link false) <$> nav))
    as [content|merr] eqn:Hmarshal; [|discriminate].
  simpl in Hdump.
  destruct (FS.WriteFile fs _ content) as [fs1|werr] eqn:Hw; [|discriminate].
  inversion Hdump; subst. clear Hdump.
  apply WriteFile_Ok in Hw as ->.
  unfold getNav, getNav_fuel.
  replace (String.length (String "/" p) + 2)
    with (S (String.length (String "/" p) + 1)) by lia.
  rewrite (getNav_loop_found _ _ _ _ content true recursive).
  2:{ rewrite Join3_skip_sep by exact Hroot. apply ReadFile_insert. }
  unfold unmarshal_into. rewrite (Hcodec content Hmarshal). simpl.
  destruct ((fun link => set_Active link false) <$> nav) as [|link rest];
    [reflexivity|].
  simpl. now destruct (Target link =? active)%string.
Qed.

End WriteFacts.

(** ** Removing a node *)

Section RemoveFacts.

Context `{!Yaml client.Node} `{!Yaml navigation}.

Import Path PathFacts PathMore LinkFacts.
#[local] Arguments Join : simpl never.
#[local] Arguments Dir : simpl never.
#[local] Arguments Base : simpl never.

(** [RemoveAll] takes away what lies at or below the name, and that only. *)
Lemma RemoveAll_spec (fs fs' : gmap string FS.entry) (dir : string) :
  FS.RemoveAll fs dir = Ok fs' ->
  (forall name, FS.below dir name = true -> fs' !! name = None) /\
  (forall name, FS.below dir name = false -> fs' !! name = fs !! name).
Proof.
  unfold FS.RemoveAll. intros Hok. inversion Hok; subst. clear Hok. split.
  - intros name Hbelow. apply map_lookup_filter_None. right.
    intros entry _. simpl. congruence.
  - intros name Hbelow. destruct (fs !! name) as [entry|] eqn:Hname.
    + now apply map_lookup_filter_Some.
    + apply map_lookup_filter_None. now left.
Qed.

Lemma removeNode_unfold (fs : gmap string FS.entry) (path root p : string) :
  Str.tail1 path = Some p ->
  removeNode fs path root =
  (if negb (Dir path =? path)%string then
     let nav := (default (None, "") (getNav fs (Dir path) "" false root)).1 in
     nav ← Remove (default [] nav) (Base path);
     dumped ← Dump fs nav (Dir path) root;
     Return dumped.1
   else Return fs)
  ≫= fun fs1 => Return (filter (fun kv => FS.below (Join [root; p]) kv.1 = false) fs1).
Proof. intros Hp. unfold removeNode. now rewrite (slice_from1_Some _ _ Hp). Qed.


(** The navigation that [removeNode] reads for the parent. *)
Lemma getNav_parent_missing (fs : gmap string FS.entry) (parent root : string) :
  ~ has_nav fs root parent ->
  getNav fs parent "" false root = Some (None, "").
Proof.
  intros Hno. unfold getNav, getNav_fuel.
  replace (String.length parent + 2) with (S (String.length parent + 1)) by lia.
  destruct (FS.ReadFile fs (Join [root; parent; "navigation.yaml"]))
    as [content|err] eqn:Hread.
  { exfalso. apply Hno. now exists content. }
  rewrite (getNav_loop_missing _ _ _ _ true _ Hread).
  unfold unmarshal_into. now rewrite Unmarshal_empty.
Qed.

Lemma getNav_parent_found (fs : gmap string FS.entry)
  (parent root content : string) :
  FS.ReadFile fs (Join [root; parent; "navigation.yaml"]) = Ok content ->
  getNav fs parent "" false root
  = Some (Some (default [] ((fun l => mark_active l "") <$> unmarshal_into content None)),
          "").
Proof.
  intros Hread. unfold getNav, getNav_fuel.
  replace (String.length parent + 2) with (S (String.length parent + 1)) by lia.
  rewrite (getNav_loop_found _ _ _ _ _ true _ Hread).
  destruct (unmarshal_into content None) as [[|link nav]|]; try reflexivity.
  simpl. now destruct (Target link =? "")%string.
Qed.

(** X14: a node whose parent has no navigation file, or one without a
    link, cannot be removed: [removeNode] panics in [Remove], before
    anything is written or deleted. *)
Theorem removeNode_without_links_panics (fs : gmap string FS.entry)
  (path root p : string) :
  Str.tail1 path = Some p ->
  Dir path <> path ->
  (~ has_nav fs root (Dir path) \/
   exists content,
     FS.ReadFile fs (Join [root; Dir path; "navigation.yaml"]) = Ok content /\
     forall link nav, Unmarshal content <> Ok (Some (link :: nav))) ->
  removeNode fs path root = Panic "runtime error: makeslice: cap out of range".
Proof.
  intros Hp Hne Hnav. rewrite (removeNode_unfold fs path root p Hp).
  apply String.eqb_neq in Hne as ->. simpl negb. cbv iota. cbv zeta.
  destruct Hnav as [Hmissing|(content & Hread & Hempty)].
  - now rewrite (getNav_parent_missing fs _ root Hmissing).
  - rewrite (getNav_parent_found fs _ root content Hread).
    unfold unmarshal_into.
    destruct (Unmarshal content) as [[[|link nav]|]|err]; try reflexivity.
    now destruct (Hempty link nav).
Qed.

(** X15: after [removeNode] has returned, with a data directory whose
    path begins with the separator, nothing is left at or below the
    directory of the node, and [lookupNode] for the node reports that the
    record file does not exist. *)
Theorem removeNode_then_lookupNode (fs fs' : gmap string FS.entry)
  (path root p : string) :
  Str.rooted root = true ->
  Str.tail1 path = Some p ->
  removeNode fs path root = Return fs' ->
  (forall name, FS.below (Join [root; p]) name = true -> fs' !! name = None) /\
  lookupNode fs' root path
  = Return (Err (PathError "open" (Join [root; p; "node.yaml"]) ENOENT)).
Proof.
  intros Hroot Hp Hremove. rewrite (removeNode_unfold fs path root p Hp) in Hremove.
  destruct (if negb (Dir path =? path)%string then _ else _) as [fs1|msg];
    [|discriminate].
  simpl in Hremove. inversion Hremove; subst. clear Hremove.
  assert (forall name, FS.below (Join [root; p]) name = true ->
            filter (fun kv => FS.below (Join [root; p]) kv.1 = false) fs1 !! name
            = None) as Hgone.
  { intros name Hbelow. now apply (RemoveAll_spec fs1 _ (Join [root; p]) eq_refl). }
  split; [exact Hgone|].
  unfold lookupNode. rewrite (slice_from1_Some _ _ Hp). simpl.
  unfold FS.ReadFile. rewrite Hgone; [reflexivity|].
  now apply Join_child_below.
Qed.

Lemma clear_filter_mark (nav : navigation) (target active : string) :
  (fun link => set_Active link false)
    <$> List.filter (fun v => negb (Target v =? target)%string) (mark_active nav active)
  = (fun link => set_Active link false)
    <$> List.filter (fun v => negb (Target v =? target)%string) nav.
Proof.
  induction nav as [|link nav IH]; [reflexivity|].
  simpl mark_active. destruct (Target link =? active)%string.
  - simpl. destruct (negb (Target link =? target)%string); reflexivity.
  - cbn [List.filter].
    destruct (negb (Target link =? target)%string); [|exact IH].
    rewrite !fmap_cons. f_equal. exact IH.
Qed.

(** X16: when [removeNode] returns for a node below a parent with a
    navigation file (both paths rooted), the navigation file of the parent
    afterwards holds the decoded navigation without the links whose target
    is the base name of the node, its active flags cleared, unless the
    file lay in the directory of the node itself; and outside the
    directory of the node no other entry has changed. *)
Theorem removeNode_updates_parent (fs fs' : gmap string FS.entry)
  (path root p content : string) (nav : navigation) :
  Str.rooted root = true ->
  Str.tail1 path = Some p ->
  Str.rooted path = true ->
  Dir path <> path ->
  let file := Join [root; Dir path; "navigation.yaml"] in
  FS.ReadFile fs file = Ok content ->
  Unmarshal content = Ok (Some nav) ->
  removeNode fs path root = Return fs' ->
  exists content',
    Marshal ((fun link => set_Active link false)
               <$> List.filter (fun v => negb (Target v =? Base path)%string) nav)
    = Ok content' /\
    (FS.below (Join [root; p]) file = false ->
     fs' !! file = Some (FS.File content')) /\
    (forall name,
       FS.below (Join [root; p]) name = false -> name <> file ->
       fs' !! name = fs !! name).
Proof.
  intros Hroot Hp Hrooted Hne file Hread Hdecode Hremove.
  assert (root <> "") as Hroot' by (intros ->; discriminate).
  rewrite (removeNode_unfold fs path root p Hp) in Hremove.
  apply String.eqb_neq in Hne as Hneb. rewrite Hneb in Hremove.
  simpl negb in Hremove. cbv iota zeta in Hremove.
  rewrite (getNav_parent_found fs _ root content Hread) in Hremove.
  unfold unmarshal_into in Hremove. rewrite Hdecode in Hremove.
  simpl fmap in Hremove. simpl default in Hremove. simpl fst in Hremove.
  destruct nav as [|link nav]; [discriminate|].
  rewrite Remove_nonempty in Hremove.
  2:{ simpl. destruct (Target link =? "")%string; discriminate. }
  change (Return ?a ≫= ?f) with (f a) in Hremove. cbv beta in Hremove.
  unfold Dump in Hremove. rewrite clear_filter_mark in Hremove.
  destruct (Marshal _) as [content'|merr] eqn:Hmarshal; [|discriminate].
  destruct (rooted_cons (Dir path) (Dir_rooted path Hrooted)) as [q Hq].
  unfold file in *. clear file. rewrite Hq in *.
  simpl in Hremove. rewrite <- (Join3_skip_sep root q) in Hremove by exact Hroot'.
  destruct (FS.WriteFile fs _ content') as [fs1|werr] eqn:Hw; [|discriminate].
  simpl in Hremove. inversion Hremove; subst. clear Hremove.
  apply WriteFile_Ok in Hw as ->.
  exists content'. split; [reflexivity|].
  destruct (RemoveAll_spec (<[Join [root; String "/" q; "navigation.yaml"]
                               := FS.File content']> fs) _ (Join [root; p]) eq_refl)
    as [_ Hkept].
  split.
  - intros Hout. rewrite (Hkept _ Hout). now rewrite lookup_insert_eq.
  - intros name Hout Hname. rewrite (Hkept _ Hout).
    now rewrite lookup_insert_ne by congruence.
Qed.

End RemoveFacts.

(** ** The HTTP handler *)

Section ServerFacts.

Context {Request Session ClientSession Site : Type}.
Context `{!Yaml client.Node}.

Variable Locale : ClientSession -> string.
Variable SiteName : Site -> string.
Variable EDIT_VIEW : Z.
Variable renderInMaster :
  string -> @masterTmplEnv ClientSession -> Site -> string -> string.
Variable editTitle : string -> string -> string.
Variable sessionSave : Session -> Request -> option string.
Variable URLPath : Request -> string.
Variable Host : Request -> string.
Variable resolveReference : Request -> string -> string + string.
Variable zeroSite : Site.
Variable setSiteName : Site -> string -> Site.
Variable DataDir : Site -> string.
Variable ConfigDir : Site -> string.
Variable SiteLocale : Site -> string.
Variable getSession : Request -> Site -> Session.
Variable getClientSession : Session -> string -> ClientSession.
Variable setLocale : ClientSession -> string -> ClientSession.
Variable checkPermission : string -> ClientSession -> bool.
Variable Login :
  Request -> client.Node -> Session -> ClientSession -> Site -> exec HttpResult.
Variable Logout : Request -> client.Node -> Session -> exec HttpResult.
Variable handleAdd :
  Request -> client.Node -> Session -> ClientSession -> Site -> exec HttpResult.
Variable handleRemove :
  Request -> client.Node -> Session -> ClientSession -> Site -> exec HttpResult.
Variable Run : string -> option string.

#[local] Abbreviation process :=
  (ProcessNodeResponse Locale EDIT_VIEW renderInMaster editTitle sessionSave).
#[local] Abbreviation request :=
  (RequestNode Locale SiteName EDIT_VIEW renderInMaster editTitle sessionSave).
#[local] Abbreviation body :=
  (serve Locale SiteName EDIT_VIEW renderInMaster editTitle sessionSave URLPath
     Host resolveReference zeroSite setSiteName DataDir ConfigDir SiteLocale
     getSession getClientSession setLocale checkPermission Login Logout
     handleAdd handleRemove).
#[local] Abbreviation handle :=
  (ServeHTTP Locale SiteName EDIT_VIEW renderInMaster editTitle sessionSave URLPath
     Host resolveReference zeroSite setSiteName DataDir ConfigDir SiteLocale
     getSession getClientSession setLocale checkPermission Login Logout
     handleAdd handleRemove).
#[local] Abbreviation site_for := (site_of zeroSite setSiteName).
#[local] Abbreviation session_for :=
  (session_of ConfigDir SiteLocale getSession getClientSession setLocale).

Lemma length_eqb_0 (s : string) : s <> "" -> (String.length s =? 0)%nat = false.
Proof. destruct s; [congruence | reflexivity]. Qed.

(** X17: a response with a redirect target is answered with the redirect,
    whatever body, raw flag and node it carries: nothing is rendered and
    the session is not saved. *)
Theorem ProcessNodeResponse_redirect_first (res : client.Response) (r : Request)
  (node : client.Node) (action : string) (session : Session)
  (cSession : ClientSession) (site : Site) :
  client.Redirect res <> "" ->
  process res r node action session cSession site
  = Return (HttpRedirect (client.Redirect res) StatusSeeOther).
Proof.
  intros Hredirect. unfold ProcessNodeResponse.
  rewrite (length_eqb_0 _ Hredirect), andb_false_r.
  destruct (client.Redirect res); [congruence | reflexivity].
Qed.

(** X18: a raw response with a body and without redirect is passed on as
    it is, once the session is saved: the master template is not used and
    the node of the response plays no part; when the session cannot be
    saved the handler panics and writes nothing. *)
Theorem ProcessNodeResponse_raw_body (res : client.Response) (r : Request)
  (node : client.Node) (action : string) (session : Session)
  (cSession : ClientSession) (site : Site) :
  client.Body res <> "" -> client.Redirect res = "" -> client.Raw res = true ->
  process res r node action session cSession site
  = match sessionSave session r with
    | Some err => Panic err
    | None => Return (HttpBody (client.Body res))
    end.
Proof.
  intros Hbody Hredirect Hraw. unfold ProcessNodeResponse.
  rewrite (length_eqb_0 _ Hbody), Hredirect, Hraw. reflexivity.
Qed.

(** X19: when the worker can be run, [AddNodeProcess] leaves a queue for
    the node type: the queue that was there, with the tickets sent to it,
    or else a new one; the queues of other types are as before, and a
    ticket for a node of the type is queued without panic, behind the
    tickets already sent. *)
Theorem AddNodeProcess_then_QueueTicket (h : @nodeHandler Request ClientSession)
  (nodeType : string) :
  Run ("monsti-" +:+ nodeType) = None ->
  exists h',
    AddNodeProcess Run h nodeType = Return h' /\
    NodeQueues h' !! nodeType = Some (default [] (NodeQueues h !! nodeType)) /\
    (forall other, other <> nodeType ->
       NodeQueues h' !! other = NodeQueues h !! other) /\
    (forall ticket,
       client.Type_ (TicketNode ticket) = nodeType ->
       QueueTicket h' ticket
       = Return (mkHandler (<[nodeType := default [] (NodeQueues h !! nodeType)
                                            ++ [ticket]]> (NodeQueues h')))).
Proof.
  intros Hrun. unfold AddNodeProcess. rewrite Hrun.
  eexists. split; [reflexivity|].
  assert (NodeQueues
            (match NodeQueues h !! nodeType with
             | Some _ => h
             | None => mkHandler (<[nodeType := []]> (NodeQueues h))
             end) !! nodeType
          = Some (default [] (NodeQueues h !! nodeType))) as Hqueue.
  { destruct (NodeQueues h !! nodeType) as [queue|] eqn:Hq; simpl; [exact Hq|].
    now rewrite lookup_insert_eq. }
  split; [exact Hqueue|]. split.
  - intros other Hother.
    destruct (NodeQueues h !! nodeType); simpl; [reflexivity|].
    now rewrite lookup_insert_ne by congruence.
  - intros ticket Htype. unfold QueueTicket. rewrite Htype, Hqueue. reflexivity.
Qed.

(** The body of [ServeHTTP] for a request that is not redirected to the
    path with its final separator. *)
Lemma serve_stays (h : @nodeHandler Request ClientSession)
  (worker : @Ticket Request ClientSession -> recv_event client.Response)
  (Hosts : gmap string string) (Sites : gmap string Site)
  (fs : gmap string FS.entry) (r : Request) (nodePath action : string) :
  splitAction (URLPath r) = Return (nodePath, action) ->
  stays nodePath action ->
  body h worker Hosts Sites fs r =
  match Hosts !! Host r with
  | None => Panic ("No site found for host " +:+ Host r)
  | Some site_name =>
      let site := site_for Sites site_name in
      let session := getSession r site in
      let cSession := session_for r site in
      found ← lookupNode fs (DataDir site) nodePath;
      match found with
      | Err err =>
          Return (HttpError ("Node not found: " +:+ Error err) StatusNotFound)
      | Ok node =>
          if negb (checkPermission action cSession)
          then Return (HttpError "Unauthorized." StatusUnauthorized)
          else if (action =? "login")%string
          then Login r node session cSession site
          else if (action =? "logout")%string
          then Logout r node session
          else if (action =? "add")%string
          then handleAdd r node session cSession site
          else if (action =? "remove")%string
          then handleRemove r node session cSession site
          else
            answered ← request h worker r node action session cSession site;
            Return answered.2
      end
  end.
Proof.
  intros Hsplit Hstays. unfold serve. rewrite Hsplit. simpl.
  destruct Hstays as [Haction|Hslash].
  - rewrite (length_eqb_0 _ Haction). reflexivity.
  - rewrite Hslash. destruct (String.length action =? 0)%nat; reflexivity.
Qed.

(** X20: a request for a path without action that does not end with the
    separator is redirected to the path with the separator, before the
    host, the node and the permission are looked at. *)
Theorem ServeHTTP_adds_slash (h : @nodeHandler Request ClientSession)
  (worker : @Ticket Request ClientSession -> recv_event client.Response)
  (Hosts : gmap string string) (Sites : gmap string Site)
  (fs : gmap string FS.entry) (r : Request) (nodePath url : string)
  (c : Ascii.ascii) :
  splitAction (URLPath r) = Return (nodePath, "") ->
  Str.last_byte nodePath = Some c -> c <> "/"%char ->
  resolveReference r (nodePath +:+ "/") = inl url ->
  handle h worker Hosts Sites fs r = HttpRedirect url StatusSeeOther.
Proof.
  intros Hsplit Hlast Hc Hurl.
  unfold ServeHTTP, serve. rewrite Hsplit. simpl.
  rewrite Hlast. simpl.
  apply Ascii.eqb_neq in Hc as ->. simpl. now rewrite Hurl.
Qed.

(** X21: a request whose path is empty, or is an action and nothing else,
    is answered with the application error: the handler panics on the
    path and recovers. *)
Theorem ServeHTTP_bad_path (h : @nodeHandler Request ClientSession)
  (worker : @Ticket Request ClientSession -> recv_event client.Response)
  (Hosts : gmap string string) (Sites : gmap string Site)
  (fs : gmap string FS.entry) (r : Request) :
  (URLPath r = "" \/
   exists action, action <> "" /\ Path.has_sep action = false /\
                  URLPath r = "@@" +:+ action) ->
  handle h worker Hosts Sites fs r
  = HttpError "Application error." StatusInternalServerError.
Proof.
  intros [Hempty|(action & Hne & Hsep & Hpath)];
    unfold ServeHTTP, serve.
  - rewrite Hempty. reflexivity.
  - rewrite Hpath.
    replace (splitAction ("@@" +:+ action))
      with (@Panic (string * string) "runtime error: slice bounds out of range");
      [reflexivity|].
    symmetry. unfold splitAction.
    rewrite (PathFacts.split_no_sep ("@@" +:+ action)) by exact Hsep.
    change (List.last ["@@" +:+ action] "") with ("@@" +:+ action).
    rewrite ActionFacts.action_of_marked by exact Hne. cbv zeta.
    rewrite (ActionFacts.length_pos action Hne).
    now replace (Z.of_nat (String.length ("@@" +:+ action))
                 - (Z.of_nat (String.length action) + 3) <? 0)%Z with true
      by (symmetry; apply Z.ltb_lt; rewrite StrFacts.length_append;
          simpl String.length; lia).
Qed.

(** X22: a request that is not redirected and comes for a host without
    site is answered with the application error, whatever the path. *)
Theorem ServeHTTP_unknown_host (h : @nodeHandler Request ClientSession)
  (worker : @Ticket Request ClientSession -> recv_event client.Response)
  (Hosts : gmap string string) (Sites : gmap string Site)
  (fs : gmap string FS.entry) (r : Request) (nodePath action : string) :
  splitAction (URLPath r) = Return (nodePath, action) ->
  stays nodePath action ->
  Hosts !! Host r = None ->
  handle h worker Hosts Sites fs r
  = HttpError "Application error." StatusInternalServerError.
Proof.
  intros Hsplit Hstays Hhost. unfold ServeHTTP.
  rewrite (serve_stays _ _ _ _ _ _ _ _ Hsplit Hstays), Hhost. reflexivity.
Qed.

(** X23: a request for a node that [lookupNode] does not find is answered
    with status 404 and the error of the lookup, for every action and
    before the permission is checked. *)
Theorem ServeHTTP_not_found (h : @nodeHandler Request ClientSession)
  (worker : @Ticket Request ClientSession -> recv_event client.Response)
  (Hosts : gmap string string) (Sites : gmap string Site)
  (fs : gmap string FS.entry) (r : Request) (nodePath action site_name : string)
  (err : error) :
  splitAction (URLPath r) = Return (nodePath, action) ->
  stays nodePath action ->
  Hosts !! Host r = Some site_name ->
  lookupNode fs (DataDir (site_for Sites site_name)) nodePath = Return (Err err) ->
  handle h worker Hosts Sites fs r
  = HttpError ("Node not found: " +:+ Error err) StatusNotFound.
Proof.
  intros Hsplit Hstays Hhost Hlookup. unfold ServeHTTP.
  rewrite (serve_stays _ _ _ _ _ _ _ _ Hsplit Hstays), Hhost.
  cbv zeta. rewrite Hlookup. reflexivity.
Qed.


(** X25: a permitted request for a node that goes to a worker is answered
    with the application error when there is no queue for the type of the
    node, and when the worker closes the reply channel without a
    response or sends a response without body and redirect. *)
Theorem ServeHTTP_worker_failure (h : @nodeHandler Request ClientSession)
  (worker : @Ticket Request ClientSession -> recv_event client.Response)
  (Hosts : gmap string string) (Sites : gmap string Site)
  (fs : gmap string FS.entry) (r : Request) (nodePath action site_name : string)
  (node : client.Node) :
  splitAction (URLPath r) = Return (nodePath, action) ->
  stays nodePath action ->
  Hosts !! Host r = Some site_name ->
  let site := site_for Sites site_name in
  let cSession := session_for r site in
  let ticket := mkTicket node r cSession action (SiteName site) in
  lookupNode fs (DataDir site) nodePath = Return (Ok node) ->
  checkPermission action cSession = true ->
  worker_action action ->
  (NodeQueues h !! client.Type_ node = None \/
   worker ticket = Closed \/
   exists res, worker ticket = Received res /\
               client.Body res = "" /\ client.Redirect res = "") ->
  handle h worker Hosts Sites fs r
  = HttpError "Application error." StatusInternalServerError.
Proof.
  intros Hsplit Hstays Hhost site cSession ticket Hlookup Hperm Haction Hfail.
  unfold ServeHTTP.
  rewrite (serve_stays _ _ _ _ _ _ _ _ Hsplit Hstays), Hhost.
  cbv zeta. fold site. fold cSession. rewrite Hlookup. simpl. rewrite Hperm. simpl.
  destruct Haction as (Hlogin & Hlogout & Hadd & Hremove).
  apply String.eqb_neq in Hlogin as ->. apply String.eqb_neq in Hlogout as ->.
  apply String.eqb_neq in Hadd as ->. apply String.eqb_neq in Hremove as ->.
  unfold RequestNode, QueueTicket. simpl. fold ticket.
  destruct (NodeQueues h !! client.Type_ node) as [queue|] eqn:Hqueue;
    [|reflexivity].
  simpl.
  assert (process (recv client.zeroResponse (worker ticket)) r node action
            (getSession r site) cSession site
          = Return (HttpError "Application error." StatusInternalServerError))
    as ->; [|reflexivity].
  destruct Hfail as [Hnone|[Hclosed|(res & Hsent & Hbody & Hredirect)]].
  - congruence.
  - rewrite Hclosed. reflexivity.
  - rewrite Hsent. simpl. unfold ProcessNodeResponse.
    now rewrite Hbody, Hredirect.
Qed.

End ServerFacts.

(** ** When the writes return *)

Section Returns.

Context `{!Yaml client.Node} `{!Yaml navigation}.

Import Path PathFacts PathMore LinkFacts.
#[local] Arguments Join : simpl never.
#[local] Arguments Dir : simpl never.
#[local] Arguments Base : simpl never.

(** A node whose directory is missing below a directory that is there. *)
Lemma writeNode_returns (fs : gmap string FS.entry) (node : client.Node)
  (root p content : string) :
  Str.tail1 (client.Path node) = Some p ->
  Marshal (client.set_Path node "") = Ok content ->
  let node_path := Join [root; p; "node.yaml"] in
  fs !! Dir node_path = None ->
  fs !! Dir (Dir node_path) = Some FS.Directory ->
  fs !! node_path = None ->
  writeNode fs node root
  = Return (None, <[node_path := FS.File content]>
                    (<[Dir node_path := FS.Directory]> fs)).
Proof.
  intros Hp Hmarshal node_path Hdir Hparent Hfile.
  unfold writeNode. rewrite Hmarshal, (slice_from1_Some _ _ Hp). simpl.
  fold node_path. unfold FS.Mkdir, FS.parent_dir. rewrite Hdir, Hparent. simpl.
  unfold FS.WriteFile, FS.parent_dir.
  rewrite lookup_insert_ne by apply node_path_not_dir.
  now rewrite Hfile, lookup_insert_eq.
Qed.

(** X27: when the path of the node's directory is taken by a regular
    file, [writeNode] does not panic: [Mkdir] reports that the name exists,
    which is let pass, and the error of the file write (not a directory)
    is returned with the data directory unchanged. *)
Theorem writeNode_directory_is_file (fs : gmap string FS.entry)
  (node : client.Node) (root p content data : string) :
  Str.tail1 (client.Path node) = Some p ->
  Marshal (client.set_Path node "") = Ok content ->
  let node_path := Join [root; p; "node.yaml"] in
  fs !! Dir node_path = Some (FS.File data) ->
  fs !! node_path <> Some FS.Directory ->
  writeNode fs node root
  = Return (Some (PathError "open" node_path ENOTDIR), fs).
Proof.
  intros Hp Hmarshal node_path Hdir Hfile.
  unfold writeNode. rewrite Hmarshal, (slice_from1_Some _ _ Hp). simpl.
  fold node_path. unfold FS.Mkdir. rewrite Hdir. simpl.
  unfold FS.WriteFile, FS.parent_dir. rewrite Hdir.
  destruct (fs !! node_path) as [[|?]|]; [congruence | reflexivity | reflexivity].
Qed.

(** A navigation for a node whose directory is there. *)
Lemma Dump_returns (fs : gmap string FS.entry) (nav : navigation)
  (nodePath root p content : string) :
  Str.tail1 nodePath = Some p ->
  Marshal ((fun link => set_Active link false) <$> nav) = Ok content ->
  let file := Join [root; p; "navigation.yaml"] in
  fs !! file <> Some FS.Directory ->
  fs !! Dir file = Some FS.Directory ->
  Dump fs nav nodePath root
  = Return (<[file := FS.File content]> fs,
            (fun link => set_Active link false) <$> nav).
Proof.
  intros Hp Hmarshal file Hfile Hdir.
  unfold Dump. rewrite Hmarshal, (slice_from1_Some _ _ Hp). simpl. fold file.
  unfold FS.WriteFile, FS.parent_dir. rewrite Hdir.
  destruct (fs !! file) as [[|?]|]; [congruence | reflexivity | reflexivity].
Qed.

(** A node below a parent whose navigation has links. *)
Lemma removeNode_returns (fs : gmap string FS.entry)
  (path root p content content' : string) (nav : navigation) :
  root <> "" ->
  Str.tail1 path = Some p ->
  Str.rooted path = true ->
  Dir path <> path ->
  let file := Join [root; Dir path; "navigation.yaml"] in
  FS.ReadFile fs file = Ok content ->
  Unmarshal content = Ok (Some nav) ->
  nav <> [] ->
  Marshal ((fun link => set_Active link false)
             <$> List.filter (fun v => negb (Target v =? Base path)%string) nav)
  = Ok content' ->
  fs !! Dir file = Some FS.Directory ->
  removeNode fs path root
  = Return (filter (fun kv => FS.below (Join [root; p]) kv.1 = false)
              (<[file := FS.File content']> fs)).
Proof.
  intros Hroot Hp Hrooted Hne file Hread Hdecode Hnav Hmarshal Hdir.
  rewrite (removeNode_unfold fs path root p Hp).
  apply String.eqb_neq in Hne as Hneb. rewrite Hneb.
  simpl negb. cbv iota zeta.
  rewrite (getNav_parent_found fs _ root content Hread).
  unfold unmarshal_into. rewrite Hdecode.
  simpl fmap. simpl default. simpl fst.
  destruct nav as [|link nav]; [congruence|].
  rewrite Remove_nonempty.
  2:{ simpl. destruct (Target link =? "")%string; discriminate. }
  change (Return ?a ≫= ?f) with (f a). cbv beta.
  destruct (rooted_cons (Dir path) (Dir_rooted path Hrooted)) as [q Hq].
  assert (FS.ReadFile fs file = Ok content) as Hread' by exact Hread.
  unfold file in *. clear file. rewrite Hq in *.
  rewrite (Dump_returns fs _ (String "/" q) root q content' eq_refl).
  - simpl. now rewrite Join3_skip_sep by exact Hroot.
  - now rewrite clear_filter_mark.
  - rewrite <- (Join3_skip_sep root q) by exact Hroot.
    unfold FS.ReadFile in Hread'.
    destruct (fs !! Join [root; String "/" q; "navigation.yaml"]) as [[|?]|];
      congruence.
  - now rewrite <- (Join3_skip_sep root q) by exact Hroot.
Qed.

End Returns.

(** ** The properties on the sample site *)

Module MoreRuns.
Import Path PathFacts SidebarFacts.

Ltac no_file :=
  let content := fresh "content" in
  let Hread := fresh "Hread" in
  intros [content Hread]; vm_compute in Hread; discriminate.

Ltac not_root :=
  let Heq := fresh "Heq" in
  intros Heq; vm_compute in Heq; discriminate.

(** X7 on the sample site: the sidebar of [/foo/a/x] is that of [/foo]. *)
Lemma getSidebar_nearest_witness :
  FS.ReadFile Demo.data (Join ["/data"; ancestor 2 "/foo/a/x"; "sidebar.html"])
  = Ok "<p>foo</p>" /\
  getSidebar Demo.data "/foo/a/x" "/data" = Some "<p>foo</p>".
Proof.
  split; [reflexivity|].
  apply (getSidebar_nearest Demo.data "/foo/a/x" "/data" "<p>foo</p>" 2).
  - intros [|[|j]] Hj; [no_file | no_file | lia].
  - intros [|[|j]] Hj; [not_root | not_root | lia].
  - reflexivity.
Defined.

(** X8 on the sample site: the navigation for [/foo/a/x] is found at
    [/foo]. *)
Lemma getNav_recursive_nearest_witness :
  FS.ReadFile Demo.data (Join ["/data"; ancestor 2 "/foo/a/x"; "navigation.yaml"])
  = Ok "a/b/a" /\
  @getNav Sample.yaml_nav Demo.data "/foo/a/x" "a" true "/data"
  = Some (Some [Sample.link "a" true; Sample.link "b" false; Sample.link "a" false],
          "/foo").
Proof.
  split; [reflexivity|].
  apply (@getNav_recursive_nearest Sample.yaml_nav Demo.data "/foo/a/x" "a" "/data"
           "a/b/a" 1).
  - intros [|[|j]] Hj; [no_file | no_file | lia].
  - intros [|[|j]] Hj; [not_root | not_root | lia].
  - reflexivity.
Defined.

(** X9 on the sample site: [/bar] has no navigation file and the root has
    one. *)
Lemma getNav_stops_below_root_witness :
  (FS.ReadFile Demo.data (Join ["/data"; "/"; "navigation.yaml"]) = Ok "foo/bar" /\
   Dir (Dir "/bar") = Dir "/bar") /\
  @getNav Sample.yaml_nav Demo.data "/bar" "foo" true "/data" = Some (None, "").
Proof.
  split; [split; reflexivity|].
  apply (@getNav_stops_below_root Sample.yaml_nav Demo.data "/bar" "foo" "/data" true).
  - no_file.
  - reflexivity.
Defined.

(** X10 on the sample site: the node [/bar/d] is written. *)
Lemma writeNode_frame_witness :
  (Str.tail1 "/bar/d" = Some "bar/d" /\
   @writeNode Sample.yaml_node Demo.data (Sample.node "/bar/d" "D") "/data"
   = Return (None,
             <[Join ["/data"; "bar/d"; "node.yaml"] := FS.File "D"]>
               (<[Dir (Join ["/data"; "bar/d"; "node.yaml"]) := FS.Directory]>
                  Demo.data))) /\
  (forall name,
     name <> Join ["/data"; "bar/d"; "node.yaml"] ->
     name <> Dir (Join ["/data"; "bar/d"; "node.yaml"]) ->
     (<[Join ["/data"; "bar/d"; "node.yaml"] := FS.File "D"]>
        (<[Dir (Join ["/data"; "bar/d"; "node.yaml"]) := FS.Directory]>
           Demo.data)) !! name
     = Demo.data !! name) /\
  (forall name,
     is_Some (Demo.data !! name) ->
     is_Some ((<[Join ["/data"; "bar/d"; "node.yaml"] := FS.File "D"]>
                 (<[Dir (Join ["/data"; "bar/d"; "node.yaml"]) := FS.Directory]>
                    Demo.data)) !! name)).
Proof.
  pose proof (@writeNode_returns Sample.yaml_node Demo.data
                (Sample.node "/bar/d" "D") "/data" "bar/d" "D" eq_refl eq_refl
                ltac:(vm_compute; reflexivity) ltac:(vm_compute; reflexivity)
                ltac:(vm_compute; reflexivity)) as Hwrite.
  split; [split; [reflexivity | exact Hwrite]|].
  exact (@writeNode_frame Sample.yaml_node Demo.data _ (Sample.node "/bar/d" "D")
           "/data" "bar/d" None eq_refl Hwrite).
Defined.

(** X11 on the sample site: there is no directory for [/nowhere]. *)
Lemma Dump_needs_directory_witness :
  (Str.tail1 "/nowhere" = Some "nowhere" /\
   Demo.data !! Dir (Join ["/data"; "nowhere"; "navigation.yaml"])
   <> Some FS.Directory) /\
  exists msg,
    @Dump Sample.yaml_nav Demo.data [Sample.link "a" true] "/nowhere" "/data"
    = Panic msg.
Proof.
  assert (Demo.data !! Dir (Join ["/data"; "nowhere"; "navigation.yaml"])
          <> Some FS.Directory) as Hno by (vm_compute; discriminate).
  split; [split; [reflexivity | exact Hno]|].
  exact (proj2 (@Dump_needs_directory Sample.yaml_nav Demo.data
                  [Sample.link "a" true] "/nowhere" "/data" "nowhere" eq_refl) Hno).
Defined.

(** X12 on the sample site: a navigation is dumped for [/bar] and read
    back. *)
Lemma Dump_then_getNav_witness :
  @Dump Sample.yaml_nav Demo.data [Sample.link "x" true; Sample.link "y" false]
    "/bar" "/data"
  = Return (<[Join ["/data"; "bar"; "navigation.yaml"] := FS.File "x/y"]> Demo.data,
            [Sample.link "x" false; Sample.link "y" false]) /\
  @getNav Sample.yaml_nav
    (<[Join ["/data"; "bar"; "navigation.yaml"] := FS.File "x/y"]> Demo.data)
    "/bar" "y" false "/data"
  = Some (Some [Sample.link "x" false; Sample.link "y" true], "").
Proof.
  pose proof (@Dump_returns Sample.yaml_nav Demo.data
                [Sample.link "x" true; Sample.link "y" false] "/bar" "/data" "bar"
                "x/y" eq_refl eq_refl
                ltac:(vm_compute; discriminate) ltac:(vm_compute; reflexivity))
    as Hdump.
  split; [exact Hdump|].
  apply (@Dump_then_getNav Sample.yaml_nav Demo.data _
           [Sample.link "x" true; Sample.link "y" false]
           [Sample.link "x" false; Sample.link "y" false] "/bar" "y" "/data" false).
  - discriminate.
  - reflexivity.
  - intros content Hmarshal. vm_compute in Hmarshal.
    injection Hmarshal as <-. reflexivity.
  - exact Hdump.
Defined.


(** X14 on the sample site: [/bar] has no navigation file, and its child
    [/bar/c] cannot be removed. *)
Lemma removeNode_without_links_panics_witness :
  (Str.tail1 "/bar/c" = Some "bar/c" /\ Dir "/bar/c" <> "/bar/c") /\
  @removeNode Sample.yaml_nav Demo.data "/bar/c" "/data"
  = Panic "runtime error: makeslice: cap out of range".
Proof.
  split; [split; [reflexivity | not_root]|].
  apply (@removeNode_without_links_panics Sample.yaml_nav Demo.data "/bar/c" "/data"
           "bar/c" eq_refl).
  - not_root.
  - left. no_file.
Defined.

(** [/foo/a] is removed from the sample site; the navigation of [/foo]
    had two links to [a]. *)
Lemma removeNode_foo_a :
  @removeNode Sample.yaml_nav Demo.data "/foo/a" "/data"
  = Return (filter (fun kv => FS.below (Join ["/data"; "foo/a"]) kv.1 = false)
              (<[Join ["/data"; Dir "/foo/a"; "navigation.yaml"] := FS.File "b"]>
                 Demo.data)).
Proof.
  apply (@removeNode_returns Sample.yaml_nav Demo.data "/foo/a" "/data" "foo/a"
           "a/b/a" "b"
           [Sample.link "a" false; Sample.link "b" false; Sample.link "a" false]).
  - discriminate.
  - reflexivity.
  - reflexivity.
  - not_root.
  - vm_compute. reflexivity.
  - reflexivity.
  - discriminate.
  - reflexivity.
  - vm_compute. reflexivity.
Qed.

(** X15 on the sample site: [/foo/a] is removed and looked up. *)
Lemma removeNode_then_lookupNode_witness :
  exists fs',
    @removeNode Sample.yaml_nav Demo.data "/foo/a" "/data" = Return fs' /\
    (forall name, FS.below (Join ["/data"; "foo/a"]) name = true ->
       fs' !! name = None) /\
    @lookupNode Sample.yaml_node fs' "/data" "/foo/a"
    = Return (Err (PathError "open" (Join ["/data"; "foo/a"; "node.yaml"]) ENOENT)).
Proof.
  eexists. split; [exact removeNode_foo_a|].
  exact (@removeNode_then_lookupNode Sample.yaml_node Sample.yaml_nav Demo.data _
           "/foo/a" "/data" "foo/a" eq_refl eq_refl removeNode_foo_a).
Defined.

(** X16 on the sample site: [/foo/a] is removed; the navigation of [/foo]
    had two links to [a]. *)
Lemma removeNode_updates_parent_witness :
  exists fs',
    @removeNode Sample.yaml_nav Demo.data "/foo/a" "/data" = Return fs' /\
    exists content',
      @Marshal _ Sample.yaml_nav
        ((fun link => set_Active link false)
           <$> List.filter (fun v => negb (Target v =? Base "/foo/a")%string)
                 [Sample.link "a" false; Sample.link "b" false; Sample.link "a" false])
      = Ok content' /\
      (FS.below (Join ["/data"; "foo/a"])
         (Join ["/data"; Dir "/foo/a"; "navigation.yaml"]) = false ->
       fs' !! Join ["/data"; Dir "/foo/a"; "navigation.yaml"]
       = Some (FS.File content')) /\
      (forall name,
         FS.below (Join ["/data"; "foo/a"]) name = false ->
         name <> Join ["/data"; Dir "/foo/a"; "navigation.yaml"] ->
         fs' !! name = Demo.data !! name).
Proof.
  eexists. split; [exact removeNode_foo_a|].
  apply (@removeNode_updates_parent Sample.yaml_nav Demo.data _ "/foo/a" "/data"
           "foo/a" "a/b/a"
           [Sample.link "a" false; Sample.link "b" false; Sample.link "a" false]
           eq_refl eq_refl eq_refl).
  - not_root.
  - vm_compute. reflexivity.
  - reflexivity.
  - exact removeNode_foo_a.
Defined.

(** X17 on a sample response with body and redirect. *)
Lemma ProcessNodeResponse_redirect_first_witness :
  client.Redirect (client.mkResponse "body" "/login" true None) <> "" /\
  Sample.process (client.mkResponse "body" "/login" true None) tt
    (Sample.node "/foo" "Foo") "view" tt tt tt
  = Return (HttpRedirect "/login" StatusSeeOther).
Proof.
  split; [discriminate|].
  apply (ProcessNodeResponse_redirect_first Sample.Locale Sample.EDIT_VIEW
           Sample.renderInMaster Sample.editTitle Sample.sessionSave
           (client.mkResponse "body" "/login" true None)).
  discriminate.
Defined.

(** X18 on a sample raw response. *)
Lemma ProcessNodeResponse_raw_body_witness :
  Sample.process
    (client.mkResponse "raw" "" true (Some (Sample.node "/elsewhere" "New"))) tt
    (Sample.node "/foo" "Foo") "edit" tt tt tt
  = Return (HttpBody "raw").
Proof.
  apply (ProcessNodeResponse_raw_body Sample.Locale Sample.EDIT_VIEW
           Sample.renderInMaster Sample.editTitle Sample.sessionSave
           (client.mkResponse "raw" "" true (Some (Sample.node "/elsewhere" "New"))));
    [discriminate | reflexivity | reflexivity].
Defined.

(** X19 on the sample site: a worker for a new node type. *)
Lemma AddNodeProcess_then_QueueTicket_witness :
  Demo.Run ("monsti-" +:+ "image") = None /\
  exists h',
    Demo.AddNodeProcess Demo.handler "image" = Return h' /\
    NodeQueues h' !! "image" = Some (default [] (NodeQueues Demo.handler !! "image")) /\
    (forall other, other <> "image" ->
       NodeQueues h' !! other = NodeQueues Demo.handler !! other) /\
    (forall ticket,
       client.Type_ (TicketNode ticket) = "image" ->
       QueueTicket h' ticket
       = Return (mkHandler (<["image" := default [] (NodeQueues Demo.handler !! "image")
                                          ++ [ticket]]> (NodeQueues h')))).
Proof.
  split; [reflexivity|].
  apply (AddNodeProcess_then_QueueTicket Demo.Run Demo.handler "image").
  reflexivity.
Defined.

(** X20 on the sample site. *)
Lemma ServeHTTP_adds_slash_witness :
  splitAction (Demo.URLPath ("example.org", "/foo")) = Return ("/foo", "") /\
  Demo.ServeHTTP Demo.handler Demo.worker Demo.Hosts Demo.Sites Demo.data
    ("example.org", "/foo")
  = HttpRedirect "/foo/" StatusSeeOther.
Proof.
  split; [reflexivity|].
  unfold Demo.ServeHTTP.
  eapply (ServeHTTP_adds_slash) with (nodePath := "/foo") (c := "o"%char);
    [reflexivity | reflexivity | discriminate | reflexivity].
Defined.

(** X21 on the sample site: the empty path. *)
Lemma ServeHTTP_bad_path_witness :
  Demo.URLPath ("example.org", "") = "" /\
  Demo.ServeHTTP Demo.handler Demo.worker Demo.Hosts Demo.Sites Demo.data
    ("example.org", "")
  = HttpError "Application error." StatusInternalServerError.
Proof.
  split; [reflexivity|].
  unfold Demo.ServeHTTP. eapply ServeHTTP_bad_path. left. reflexivity.
Defined.

(** X22 on the sample site: a host without site. *)
Lemma ServeHTTP_unknown_host_witness :
  Demo.Hosts !! Demo.Host ("example.com", "/foo/") = None /\
  Demo.ServeHTTP Demo.handler Demo.worker Demo.Hosts Demo.Sites Demo.data
    ("example.com", "/foo/")
  = HttpError "Application error." StatusInternalServerError.
Proof.
  split; [reflexivity|].
  unfold Demo.ServeHTTP.
  eapply ServeHTTP_unknown_host with (nodePath := "/foo/") (action := "");
    [reflexivity | right; reflexivity | reflexivity].
Defined.

(** X23 on the sample site: a node that is not there, with an action that
    is not permitted. *)
Lemma ServeHTTP_not_found_witness :
  Demo.checkPermission "secret" tt = false /\
  Demo.ServeHTTP Demo.handler Demo.worker Demo.Hosts Demo.Sites Demo.data
    ("example.org", "/nope/@@secret")
  = HttpError "Node not found: open /data/nope/node.yaml: no such file or directory"
      StatusNotFound.
Proof.
  split; [reflexivity|].
  unfold Demo.ServeHTTP.
  eapply ServeHTTP_not_found
    with (nodePath := "/nope") (action := "secret") (site_name := "FooSite")
         (err := PathError "open" "/data/nope/node.yaml" ENOENT);
    [reflexivity | left; discriminate | reflexivity | reflexivity].
Defined.


(** X25 on the sample site: the worker closes the reply channel. *)
Lemma ServeHTTP_worker_failure_witness :
  Demo.ServeHTTP Demo.handler (fun _ => Closed) Demo.Hosts Demo.Sites Demo.data
    ("example.org", "/foo/")
  = HttpError "Application error." StatusInternalServerError.
Proof.
  unfold Demo.ServeHTTP.
  eapply ServeHTTP_worker_failure
    with (nodePath := "/foo/") (action := "") (site_name := "FooSite")
         (node := Sample.node "/foo/" "Foo");
    [reflexivity | right; reflexivity | reflexivity | reflexivity | reflexivity
    | repeat split; discriminate | right; left; reflexivity].
Defined.

(** X27 on the sample site: a node is written where the sidebar file of
    [/foo] is. *)
Lemma writeNode_directory_is_file_witness :
  (Str.tail1 "/foo/sidebar.html" = Some "foo/sidebar.html" /\
   Demo.data !! Dir (Join ["/data"; "foo/sidebar.html"; "node.yaml"])
   = Some (FS.File "<p>foo</p>")) /\
  @writeNode Sample.yaml_node Demo.data (Sample.node "/foo/sidebar.html" "S") "/data"
  = Return (Some (PathError "open"
                    (Join ["/data"; "foo/sidebar.html"; "node.yaml"]) ENOTDIR),
            Demo.data).
Proof.
  assert (Demo.data !! Dir (Join ["/data"; "foo/sidebar.html"; "node.yaml"])
          = Some (FS.File "<p>foo</p>")) as Hdir by (vm_compute; reflexivity).
  split; [split; [reflexivity | exact Hdir]|].
  apply (@writeNode_directory_is_file Sample.yaml_node Demo.data
           (Sample.node "/foo/sidebar.html" "S") "/data" "foo/sidebar.html" "S"
           "<p>foo</p>" eq_refl eq_refl Hdir).
  vm_compute. discriminate.
Defined.

End MoreRuns.

(** ** The recursive search ends *)

Section NavTermination.

Context `{!Yaml navigation}.

Import Path PathFacts.
#[local] Arguments Join : simpl never.
#[local] Arguments Dir : simpl never.

(** More fuel does not change what the read loop returns. *)
Lemma getNav_loop_more (fs : gmap string FS.entry) (root : string)
  (recursive : bool) (r : string * bool * string) :
  forall fuel extra nodePath hasNav,
    getNav_loop fuel fs nodePath hasNav recursive root = Some r ->
    getNav_loop (fuel + extra) fs nodePath hasNav recursive root = Some r.
Proof.
  induction fuel as [|fuel IH]; intros extra nodePath hasNav; [discriminate|].
  change (S fuel + extra) with (S (fuel + extra)).
  rewrite !getNav_loop_S.
  destruct (FS.ReadFile fs _) as [content|err]; [auto|].
  destruct (negb recursive || _); [auto|]. apply IH.
Qed.

(** X26: [getNav] returns for every node path, with and without
    recursion: the search up the tree ends within the length of the path
    and two rounds more, and no larger bound changes the result. *)
Theorem getNav_terminates (fs : gmap string FS.entry)
  (nodePath active root : string) (recursive : bool) :
  exists r,
    getNav fs nodePath active recursive root = Some r /\
    forall fuel, String.length nodePath + 2 <= fuel ->
      getNav_fuel fuel fs nodePath active recursive root = Some r.
Proof.
  destruct (getNav_loop_total fs root recursive (String.length nodePath + 2)
              nodePath true) as [[[content hasNav] navRoot] Hloop].
  { pose proof (height_le nodePath). lia. }
  assert (forall fuel, String.length nodePath + 2 <= fuel ->
            getNav_loop fuel fs nodePath true recursive root
            = Some (content, hasNav, navRoot)) as Hmore.
  { intros fuel Hfuel.
    replace fuel with (String.length nodePath + 2 + (fuel - (String.length nodePath + 2)))
      by lia.
    now apply getNav_loop_more. }
  unfold getNav, getNav_fuel. rewrite Hloop.
  destruct (_ && hasNav) eqn:Hempty.
  - eexists. split; [reflexivity|].
    intros fuel Hfuel. now rewrite (Hmore fuel Hfuel), Hempty.
  - eexists. split; [reflexivity|].
    intros fuel Hfuel. now rewrite (Hmore fuel Hfuel), Hempty.
Qed.

End NavTermination.
